(** * Client-side authentication layer: request client, token manager and
      the confirm-reset step of the password-reset flow.

    Shallow embedding of [src/lib/api-client.ts] (classes [ApiClient] and
    [TokenManager]) and of the page component [VerifyResetPassword].

    - Decoded JSON is an inductive type; a JavaScript number is an IEEE-754
      double ([spec_float]); [undefined] is [None] of an [option].
    - A promise is its settled [outcome]; the network ([fetch]), the backend
      endpoints and the session bridge ([signIn]) are functions handed to the
      code that calls them.
    - A string is held as its UTF-8 text; [.length] is counted in UTF-16
      code units, as JavaScript counts it.
    - [localStorage], [sessionStorage] and header records are finite maps
      from strings to strings.
    - The page handler threads one state record that also collects, in order,
      the effects it performs on the outside world. *)

From Stdlib Require Import NArith String List Bool.
From Stdlib Require Import Floats.SpecFloat DecimalString.
From stdpp Require Import base option gmap strings.
Import ListNotations.
Open Scope string_scope.
Set Warnings "-register-all".

(** ** JavaScript values as the client sees them *)

Module JS.

(** What [JSON.parse] / [response.json()] can produce. The property list of
    an object names every key once (a decoded object has no duplicate keys);
    [assoc] reads the first entry. *)
Inductive value : Type :=
| VNull
| VBool (b : bool)
| VNumber (n : spec_float)
| VString (s : string)
| VArray (elements : list value)
| VObject (properties : list (string * value)).

(** A JavaScript expression result: a value or [undefined]. *)
Abbreviation js := (option value).
Abbreviation undefined := (@None value).

Inductive type_tag : Set :=
| Tundefined | Tobject | Tboolean | Tnumber | Tstring.

(** [typeof v]; [typeof null] and [typeof []] are ["object"]. *)
Definition typeof (v : js) : type_tag :=
  match v with
  | None => Tundefined
  | Some VNull => Tobject
  | Some (VBool _) => Tboolean
  | Some (VNumber _) => Tnumber
  | Some (VString _) => Tstring
  | Some (VArray _) => Tobject
  | Some (VObject _) => Tobject
  end.

Definition type_tag_eqb (a b : type_tag) : bool :=
  match a, b with
  | Tundefined, Tundefined | Tobject, Tobject | Tboolean, Tboolean
  | Tnumber, Tnumber | Tstring, Tstring => true
  | _, _ => false
  end.

(** Truthiness of a string: every string but the empty one. *)
Definition nonempty (s : string) : bool :=
  match s with
  | EmptyString => false
  | String _ _ => true
  end.

(** [ToBoolean]: [null], [false], [+0], [-0], [NaN] and [""] are falsy. *)
Definition ToBoolean (v : value) : bool :=
  match v with
  | VNull => false
  | VBool b => b
  | VNumber (S754_zero _) => false
  | VNumber S754_nan => false
  | VNumber _ => true
  | VString s => nonempty s
  | VArray _ => true
  | VObject _ => true
  end.

Definition truthy (v : js) : bool :=
  match v with
  | None => false
  | Some v => ToBoolean v
  end.

(** Truthiness of a [string | null]. *)
Definition truthy_string (s : option string) : bool :=
  match s with
  | None => false
  | Some s => nonempty s
  end.

(** [a || b] *)
Definition or (a b : js) : js := if truthy a then a else b.

Fixpoint assoc (k : string) (l : list (string * value)) : js :=
  match l with
  | [] => undefined
  | (k', v) :: l' => if String.eqb k k' then Some v else assoc k l'
  end.

(** [v.k] on a value that is not [null], for a name [k] that is no built-in
    property of strings, arrays or the prototypes (the client reads
    [message], [error] and [data] only): own properties of objects,
    [undefined] elsewhere. *)
Definition get (k : string) (v : value) : js :=
  match v with
  | VObject properties => assoc k properties
  | _ => undefined
  end.

(** [o.k] where [o] is already known to be neither [null] nor [undefined],
    and [o?.k]. *)
Definition get_in (k : string) (o : js) : js :=
  match o with
  | None => undefined
  | Some v => get k v
  end.

Definition optional_get (k : string) (o : js) : js :=
  match o with
  | None | Some VNull => undefined
  | Some v => get k v
  end.

(** What can be thrown or reject a promise: an [Error] instance (with the
    [response] the request client attaches to it) or any other value. *)
Inductive exn : Type :=
| ErrorObject (name message : string) (response : option (N * value))
| NonError (v : value).

Definition instanceof_Error (e : exn) : bool :=
  match e with
  | ErrorObject _ _ _ => true
  | NonError _ => false
  end.

(** A settled promise. *)
Inductive outcome (A : Type) : Type :=
| Resolved (a : A)
| Rejected (e : exn).
Arguments Resolved {A} a.
Arguments Rejected {A} e.

(** The text of the [TypeError] the engine raises when property [k] of
    [null] is read is the engine's own. *)
Class Runtime := { null_read_message : string -> string }.

Definition TypeError (message : string) : exn :=
  ErrorObject "TypeError" message None.

(** Template-literal rendering of a non-negative integer. *)
Definition string_of_N (n : N) : string :=
  NilZero.string_of_uint (N.to_uint n).

(** A JavaScript string is held as its UTF-8 text, one [ascii] per byte.
    [s.length] counts UTF-16 code units: one for every character of the
    basic plane (a lead byte [0xxxxxxx], [110xxxxx] or [1110xxxx]), two for
    a character beyond it (lead byte [11110xxx]), none for a continuation
    byte [10xxxxxx]. *)
Definition utf16_units (c : Ascii.ascii) : nat :=
  match c with
  | Ascii.Ascii _ _ _ _ _ _ _ false => 1
  | Ascii.Ascii _ _ _ _ _ _ false true => 0
  | Ascii.Ascii _ _ _ _ true true true true => 2
  | Ascii.Ascii _ _ _ _ _ _ true true => 1
  end.

Fixpoint utf16_length (s : string) : nat :=
  match s with
  | EmptyString => 0
  | String c s' => utf16_units c + utf16_length s'
  end.

End JS.

(** ** [class ApiClient] *)

Module ApiClient.
Import JS.

Record ApiClient := {
  baseURL : string;
  accessToken : option string;   (* string | null *)
}.

Definition setAccessToken (token : option string) (this : ApiClient) : ApiClient :=
  {| baseURL := baseURL this; accessToken := token |}.

Definition getAccessToken (this : ApiClient) : option string := accessToken this.

(** An optional property of an object literal: not there, there and
    [undefined], or there with a value. *)
Inductive property (A : Type) : Type :=
| Absent
| Undefined
| Present (a : A).
Arguments Absent {A}.
Arguments Undefined {A}.
Arguments Present {A} a.

(** Every body the client sends is [JSON.stringify(data)]. *)
Inductive BodyInit : Type :=
| JSON_stringify (data : value).

(** [RequestInit], with [headers] in its record form: a plain object of
    string values. A [Headers] instance or an array of pairs, the other two
    forms of [HeadersInit], is not covered. *)
Record RequestInit := {
  method : option string;
  body : option BodyInit;
  headers : property (gmap string string);
}.

Definition no_options : RequestInit :=
  {| method := None; body := None; headers := Absent |}.

(** [{ ...a, ...b }]: the later spread wins. *)
Definition spread (a b : gmap string string) : gmap string string := b ∪ a.

(** [...h] inside an object literal; spreading [undefined] adds nothing. *)
Definition spreadable (h : property (gmap string string)) : gmap string string :=
  match h with
  | Present h => h
  | Absent | Undefined => ∅
  end.

(** The [config] built at the head of [request]:
    [{ headers: { "Content-Type": "application/json", ...options.headers }, ...options }]
    followed by the [Authorization] update when [this.accessToken] is truthy.
    [...options] comes after [headers:], so an own [headers] property of
    [options] replaces the merged record. *)
Definition request_config (this : ApiClient) (options : RequestInit) : RequestInit :=
  let merged :=
    spread {[ "Content-Type" := "application/json" ]} (spreadable (headers options)) in
  let config :=
    {| method := method options;
       body := body options;
       headers := match headers options with
                  | Absent => Present merged
                  | own => own
                  end |} in
  if truthy_string (accessToken this) then
    {| method := method config;
       body := body config;
       headers :=
         Present (spread (spreadable (headers config))
                         {[ "Authorization" := "Bearer " +:+ default "" (accessToken this) ]}) |}
  else config.

Record Response := {
  ok : bool;
  status : N;
  statusText : string;
  json : outcome value;          (* response.json() *)
}.

Definition http_status_phrase (status : N) (statusText : string) : string :=
  "HTTP " +:+ string_of_N status +:+ ": " +:+ statusText.

(** The [errorMessage] computed in the [!response.ok] branch, for an
    [errorData] that is not [null]. *)
Definition errorMessage (errorData : value) (status : N) (statusText : string) : string :=
  let phrase := http_status_phrase status statusText in
  let error := get "error" errorData in
  let errorMessage :=
    or (get "message" errorData)
      (or (optional_get "message" error)
        (or (if type_tag_eqb (typeof error) Tstring then error else Some VNull)
            (Some (VString phrase)))) in
  let data := get "data" errorData in
  let errorMessage :=
    if truthy data && type_tag_eqb (typeof data) Tobject then
      or (get_in "message" data)
        (or (optional_get "message" (get_in "error" data))
            errorMessage)
    else errorMessage in
  match errorMessage with
  | Some (VString s) => s
  | _ => phrase
  end.

(** [private async request<T>(endpoint, options)]. The [catch] at its end
    logs and rethrows, so it does not change the outcome. *)
Definition request `{Runtime} (fetch : string -> RequestInit -> outcome Response)
    (this : ApiClient) (endpoint : string) (options : RequestInit) : outcome value :=
  let url := baseURL this +:+ endpoint in
  let config := request_config this options in
  match fetch url config with
  | Rejected e => Rejected e
  | Resolved response =>
      if negb (ok response) then
        let errorData :=
          match json response with
          | Resolved v => v
          | Rejected _ => VObject []
          end in
        match errorData with
        | VNull => Rejected (TypeError (null_read_message "message"))
        | _ =>
            Rejected (ErrorObject "Error"
                        (errorMessage errorData (status response) (statusText response))
                        (Some (status response, errorData)))
        end
      else
        match json response with
        | Rejected e => Rejected e
        | Resolved data =>
            match data with
            | VNull => Rejected (TypeError (null_read_message "data"))
            | _ =>
                match get "data" data with
                | Some inner => if ToBoolean inner then Resolved inner else Resolved data
                | None => Resolved data
                end
            end
        end
  end.

(** The endpoint methods are [request] at a fixed path with a stringified
    body and no [headers]. *)
Definition POST (data : value) : RequestInit :=
  {| method := Some "POST"; body := Some (JSON_stringify data); headers := Absent |}.

Definition refreshToken `{Runtime} fetch (this : ApiClient) (refreshToken : string)
    : outcome value :=
  request fetch this "/api/v1/auth/refresh-token"
    (POST (VObject [("refresh_token", VString refreshToken)])).

Definition verifyResetPassword `{Runtime} fetch (this : ApiClient)
    (email otp_code new_password : string) : outcome value :=
  request fetch this "/api/v1/auth/verify-reset-password"
    (POST (VObject [("email", VString email);
                    ("otp_code", VString otp_code);
                    ("new_password", VString new_password)])).

End ApiClient.

(** ** Declared payload types of the endpoints the session layer uses *)

Module AuthResponse.
Record t := {
  user : JS.value;
  access_token : string;
  refresh_token : string;
  expires_in : spec_float;
}.
End AuthResponse.

Module VerifyResetPasswordRequest.
Record t := {
  email : string;
  otp_code : string;
  new_password : string;
}.
End VerifyResetPasswordRequest.

Module VerifyResetPasswordResponse.
Record t := {
  message : string;
  user : JS.value;
  access_token : string;
  refresh_token : string;
  expires_in : spec_float;
}.
End VerifyResetPasswordResponse.

(** ** [class TokenManager] *)

Module TokenManager.
Import JS.

Definition ACCESS_TOKEN_KEY : string := "access_token".
Definition REFRESH_TOKEN_KEY : string := "refresh_token".

(** The browser side of the token manager: whether [window] is defined,
    the contents of [localStorage], and the refresh tokens handed to
    [apiClient.refreshToken] so far (oldest first), one per network call. *)
Record world := {
  window : bool;
  localStorage : gmap string string;
  refresh_calls : list string;
}.

Definition with_localStorage (ls : gmap string string) (w : world) : world :=
  {| window := window w; localStorage := ls; refresh_calls := refresh_calls w |}.

Definition setTokens (accessToken refreshToken : string) (w : world) : world :=
  if window w then
    with_localStorage
      (<[REFRESH_TOKEN_KEY := refreshToken]>
         (<[ACCESS_TOKEN_KEY := accessToken]> (localStorage w))) w
  else w.

Definition getAccessToken (w : world) : option string :=
  if window w then localStorage w !! ACCESS_TOKEN_KEY else None.

Definition getRefreshToken (w : world) : option string :=
  if window w then localStorage w !! REFRESH_TOKEN_KEY else None.

Definition clearTokens (w : world) : world :=
  if window w then
    with_localStorage
      (delete REFRESH_TOKEN_KEY (delete ACCESS_TOKEN_KEY (localStorage w))) w
  else w.

(** [await apiClient.refreshToken(refreshToken)], the method taken at its
    declared type [Promise<AuthResponse>]; the call is recorded. *)
Definition call_refreshToken (refreshToken : string) (w : world) : world :=
  {| window := window w; localStorage := localStorage w;
     refresh_calls := refresh_calls w ++ [refreshToken] |}.

Definition refreshAccessToken (apiClient_refreshToken : string -> outcome AuthResponse.t)
    (w : world) : option string * world :=
  match getRefreshToken w with
  | Some refreshToken =>
      if negb (nonempty refreshToken) then (None, w)
      else
        let w := call_refreshToken refreshToken w in
        match apiClient_refreshToken refreshToken with
        | Resolved response =>
            (Some (AuthResponse.access_token response),
             setTokens (AuthResponse.access_token response)
                       (AuthResponse.refresh_token response) w)
        | Rejected error => (None, clearTokens w)
        end
  | None => (None, w)
  end.

(** A caller's use of the manager: one operation after the other, each
    refresh with the backend it meets. *)
Inductive operation : Type :=
| SetTokens (accessToken refreshToken : string)
| ClearTokens
| RefreshAccessToken (apiClient_refreshToken : string -> outcome AuthResponse.t).

Definition perform (op : operation) (w : world) : world :=
  match op with
  | SetTokens a r => setTokens a r w
  | ClearTokens => clearTokens w
  | RefreshAccessToken api => snd (refreshAccessToken api w)
  end.

Definition run (ops : list operation) (w : world) : world :=
  fold_left (fun w op => perform op w) ops w.

(** The stored pair: both slots, or none. *)
Definition paired (ls : gmap string string) : Prop :=
  is_Some (ls !! ACCESS_TOKEN_KEY) <-> is_Some (ls !! REFRESH_TOKEN_KEY).

End TokenManager.

(** ** The page component [VerifyResetPassword] (step 3 of the reset flow) *)

Module VerifyResetPassword.
Import JS.

Record Toast := {
  title : string;
  description : string;
  variant : option string;
}.

(** Options and result of the session bridge [signIn("credentials", ...)]. *)
Record SignInOptions := {
  accessToken : string;
  refreshToken : string;
  redirect : bool;
}.

Record SignInResponse := {
  ok : bool;
  error : option string;
}.

(** What the component does to the outside world, in the order it does it. *)
Inductive effect : Type :=
| toast (t : Toast)
| router_push (href : string)
| sessionStorage_removeItem (key : string)
| apiClient_verifyResetPassword (data : VerifyResetPasswordRequest.t)
| signIn (provider : string) (options : SignInOptions).

(** The [useState] cells the handler reads or writes, the tab's
    [sessionStorage], and the effects performed so far (oldest first).
    Strings are UTF-8 text; [utf16_length] is [.length]. *)
Record state := {
  email : string;
  newPassword : string;
  confirmPassword : string;
  loading : bool;
  isVerifying : bool;
  sessionStorage : gmap string string;
  effects : list effect;
}.

Definition setEmail (v : string) (st : state) : state :=
  {| email := v; newPassword := newPassword st;
     confirmPassword := confirmPassword st; loading := loading st;
     isVerifying := isVerifying st; sessionStorage := sessionStorage st;
     effects := effects st |}.

Definition setLoading (v : bool) (st : state) : state :=
  {| email := email st; newPassword := newPassword st;
     confirmPassword := confirmPassword st; loading := v;
     isVerifying := isVerifying st; sessionStorage := sessionStorage st;
     effects := effects st |}.

Definition setIsVerifying (v : bool) (st : state) : state :=
  {| email := email st; newPassword := newPassword st;
     confirmPassword := confirmPassword st; loading := loading st;
     isVerifying := v; sessionStorage := sessionStorage st;
     effects := effects st |}.

Definition perform (e : effect) (st : state) : state :=
  {| email := email st; newPassword := newPassword st;
     confirmPassword := confirmPassword st; loading := loading st;
     isVerifying := isVerifying st; sessionStorage := sessionStorage st;
     effects := effects st ++ [e] |}.

Definition getItem (key : string) (st : state) : option string :=
  sessionStorage st !! key.

Definition removeItem (key : string) (st : state) : state :=
  perform (sessionStorage_removeItem key)
    {| email := email st; newPassword := newPassword st;
       confirmPassword := confirmPassword st; loading := loading st;
       isVerifying := isVerifying st;
       sessionStorage := delete key (sessionStorage st);
       effects := effects st |}.

Definition destructive : option string := Some "destructive".

Definition toast_email_missing : Toast :=
  {| title := "❌ Email Tidak Ditemukan";
     description := "Silakan mulai ulang proses reset password";
     variant := destructive |}.

Definition toast_password_required : Toast :=
  {| title := "❌ Password Diperlukan";
     description := "Silakan masukkan password baru dan konfirmasi password";
     variant := destructive |}.

Definition toast_password_mismatch : Toast :=
  {| title := "❌ Password Tidak Cocok";
     description := "Password baru dan konfirmasi password tidak sama";
     variant := destructive |}.

Definition toast_password_short : Toast :=
  {| title := "❌ Password Terlalu Pendek";
     description := "Password minimal 6 karakter";
     variant := destructive |}.

Definition toast_otp_missing : Toast :=
  {| title := "❌ OTP Belum Diverifikasi";
     description := "Silakan verifikasi OTP terlebih dahulu";
     variant := destructive |}.

Definition toast_success : Toast :=
  {| title := "🎉 Berhasil!";
     description := "Password berhasil direset! Mengalihkan ke dashboard...";
     variant := None |}.

Definition toast_login_manually : Toast :=
  {| title := "⚠️ Reset Berhasil";
     description := "Password berhasil direset. Silakan login untuk melanjutkan.";
     variant := None |}.

Definition toast_failed (error : exn) : Toast :=
  {| title := "❌ Verifikasi Gagal";
     description :=
       match error with
       | ErrorObject _ message _ => message
       | NonError _ =>
           "Terjadi kesalahan saat verifikasi. Silakan coba lagi atau hubungi support."
       end;
     variant := destructive |}.

(** The callback of [useEffect(..., [router])], run once the component has
    mounted. The two tests are independent statements. *)
Definition useEffect (st : state) : state :=
  let storedEmail := getItem "reset_password_email" st in
  let verifiedOtp := getItem "verified_otp" st in
  let st :=
    if truthy_string storedEmail then setEmail (default "" storedEmail) st
    else perform (router_push "/auth/reset-password") st in
  if negb (truthy_string verifiedOtp) then
    perform (router_push "/auth/verify-otp-reset") st
  else st.

(** What the component returns: the placeholder while [email] is empty,
    the form otherwise. *)
Inductive view : Set := Loading | Form.

Definition render (st : state) : view :=
  if negb (nonempty (email st)) then Loading else Form.

(** [loginResult?.ok] *)
Definition loginResult_ok (loginResult : option SignInResponse) : bool :=
  match loginResult with
  | Some r => ok r
  | None => false
  end.

(** [const verifyResetPassword = async () => { ... }], run to completion.
    [console.error] is not recorded. *)
Definition verifyResetPassword
    (apiClient : VerifyResetPasswordRequest.t -> outcome VerifyResetPasswordResponse.t)
    (nextAuth : string -> SignInOptions -> outcome (option SignInResponse))
    (st : state) : state :=
  if negb (nonempty (email st)) then
    perform (toast toast_email_missing) st
  else if negb (nonempty (newPassword st)) || negb (nonempty (confirmPassword st)) then
    perform (toast toast_password_required) st
  else if negb (String.eqb (newPassword st) (confirmPassword st)) then
    perform (toast toast_password_mismatch) st
  else if Nat.ltb (utf16_length (newPassword st)) 6 then
    perform (toast toast_password_short) st
  else
    let verifiedOtp := getItem "verified_otp" st in
    if negb (truthy_string verifiedOtp) then
      perform (router_push "/auth/verify-otp-reset")
        (perform (toast toast_otp_missing) st)
    else
      let st := setIsVerifying true st in
      let st := setLoading true st in
      let data :=
        {| VerifyResetPasswordRequest.email := email st;
           VerifyResetPasswordRequest.otp_code := default "" verifiedOtp;
           VerifyResetPasswordRequest.new_password := newPassword st |} in
      let st := perform (apiClient_verifyResetPassword data) st in
      let st :=
        match apiClient data with
        | Resolved response =>
            let st := perform (toast toast_success) st in
            let st := removeItem "reset_password_email" st in
            let st := removeItem "verified_otp" st in
            let options :=
              {| accessToken := VerifyResetPasswordResponse.access_token response;
                 refreshToken := VerifyResetPasswordResponse.refresh_token response;
                 redirect := false |} in
            let st := perform (signIn "credentials" options) st in
            match nextAuth "credentials" options with
            | Resolved loginResult =>
                if loginResult_ok loginResult then
                  perform (router_push "/") st
                else
                  perform (router_push "auth/login")
                    (perform (toast toast_login_manually) st)
            | Rejected loginError =>
                perform (router_push "/auth/login")
                  (perform (toast toast_login_manually) st)
            end
        | Rejected error =>
            let st := perform (toast (toast_failed error)) st in
            let st := removeItem "verified_otp" st in
            setIsVerifying false st
        end in
      (* finally *)
      setIsVerifying false (setLoading false st).

(** The [onChange] handlers of the two password inputs. *)
Definition setNewPassword (v : string) (st : state) : state :=
  {| email := email st; newPassword := v;
     confirmPassword := confirmPassword st; loading := loading st;
     isVerifying := isVerifying st; sessionStorage := sessionStorage st;
     effects := effects st |}.

Definition setConfirmPassword (v : string) (st : state) : state :=
  {| email := email st; newPassword := newPassword st;
     confirmPassword := v; loading := loading st;
     isVerifying := isVerifying st; sessionStorage := sessionStorage st;
     effects := effects st |}.

(** The [disabled] attribute of the submit button:
    [loading || isVerifying || !newPassword || !confirmPassword]. *)
Definition submit_disabled (st : state) : bool :=
  loading st || isVerifying st
  || negb (nonempty (newPassword st)) || negb (nonempty (confirmPassword st)).

(** The form event, as far as the component touches it. *)
Record FormEvent := { defaultPrevented : bool }.

Definition preventDefault (e : FormEvent) : FormEvent :=
  {| defaultPrevented := true |}.

(** [const handleSubmit = async (e) => { e.preventDefault(); await verifyResetPassword(); }] *)
Definition handleSubmit
    (apiClient : VerifyResetPasswordRequest.t -> outcome VerifyResetPasswordResponse.t)
    (nextAuth : string -> SignInOptions -> outcome (option SignInResponse))
    (e : FormEvent) (st : state) : FormEvent * state :=
  (preventDefault e, verifyResetPassword apiClient nextAuth st).

End VerifyResetPassword.

(** ** The specification's wording, as definitions to compare the code with *)

Module Spec.
Import JS.

(** Envelope unwrapping as the specification words it: the body's [data]
    whenever the body has a [data] property, the body otherwise. *)
Definition unwrapped (body : value) : value :=
  match get "data" body with
  | Some inner => inner
  | None => body
  end.

Definition is_string (o : js) : option string :=
  match o with
  | Some (VString s) => Some s
  | _ => None
  end.

Definition is_object (o : js) : bool :=
  match o with
  | Some (VObject _) | Some (VArray _) => true
  | _ => false
  end.

(** Steps 1 to 3 of the specification's fallback chain, against [body]. *)
Definition step1 (body : value) : option string := is_string (get "message" body).

Definition step2 (body : value) : option string :=
  if is_object (get "error" body) then is_string (get_in "message" (get "error" body))
  else None.

Definition step3 (body : value) : option string := is_string (get "error" body).

Definition first_of (a b : option string) : option string :=
  match a with
  | Some s => Some s
  | None => b
  end.

Definition steps_1_to_3 (body : value) : option string :=
  first_of (step1 body) (first_of (step2 body) (step3 body)).

(** The ordered fallback chain as the specification words it: steps 1 to 3
    against the body, the same three steps against [body.data] when that is
    an object (its result replacing the outer one only when it is a
    string), the HTTP phrase last. *)
Definition fallback_chain (body : value) (status : N) (statusText : string) : string :=
  let outer := steps_1_to_3 body in
  let result :=
    if is_object (get "data" body) then
      first_of (get "data" body ≫= steps_1_to_3) outer
    else outer in
  default (ApiClient.http_status_phrase status statusText) result.

(** The chain the code runs, said as one priority list: the candidates are
    [data.message] and [data.error.message] (when [body.data] is a non-null
    object or array), then [body.message], [body.error.message], and
    [body.error] when it is a string. *)
Definition candidates (body : value) : list js :=
  let data := get "data" body in
  let error := get "error" body in
  (if is_object data
   then [get_in "message" data; get_in "message" (get_in "error" data)]
   else [])
  ++ [get "message" body;
      get_in "message" error;
      match error with Some (VString s) => error | _ => undefined end].

Definition first_truthy (l : list js) : js :=
  default undefined (find truthy l).

(** The first truthy candidate is the message when it is a string; when it
    is not, or when there is none, the HTTP phrase is. *)
Definition first_truthy_chain (body : value) (status : N) (statusText : string) : string :=
  default (ApiClient.http_status_phrase status statusText)
          (is_string (first_truthy (candidates body))).

(** The five local validations of the confirm-reset step, in the order the
    specification lists them. *)
Inductive validation : Set :=
| email_present
| passwords_nonempty
| passwords_equal
| password_long_enough
| otp_present.

Definition validations : list validation :=
  [email_present; passwords_nonempty; passwords_equal; password_long_enough;
   otp_present].

Definition passes (st : VerifyResetPassword.state) (v : validation) : bool :=
  match v with
  | email_present => nonempty (VerifyResetPassword.email st)
  | passwords_nonempty =>
      nonempty (VerifyResetPassword.newPassword st)
      && nonempty (VerifyResetPassword.confirmPassword st)
  | passwords_equal =>
      String.eqb (VerifyResetPassword.newPassword st)
                 (VerifyResetPassword.confirmPassword st)
  | password_long_enough =>
      Nat.leb 6 (utf16_length (VerifyResetPassword.newPassword st))
  | otp_present =>
      truthy_string (VerifyResetPassword.sessionStorage st !! "verified_otp")
  end.

Definition first_failure (st : VerifyResetPassword.state) : option validation :=
  find (fun v => negb (passes st v)) validations.

(** What the user sees when a validation fails. *)
Definition rejection (v : validation) : list VerifyResetPassword.effect :=
  match v with
  | email_present =>
      [VerifyResetPassword.toast VerifyResetPassword.toast_email_missing]
  | passwords_nonempty =>
      [VerifyResetPassword.toast VerifyResetPassword.toast_password_required]
  | passwords_equal =>
      [VerifyResetPassword.toast VerifyResetPassword.toast_password_mismatch]
  | password_long_enough =>
      [VerifyResetPassword.toast VerifyResetPassword.toast_password_short]
  | otp_present =>
      [VerifyResetPassword.toast VerifyResetPassword.toast_otp_missing;
       VerifyResetPassword.router_push "/auth/verify-otp-reset"]
  end.

Definition is_backend_call (e : VerifyResetPassword.effect) : bool :=
  match e with
  | VerifyResetPassword.apiClient_verifyResetPassword _ => true
  | _ => false
  end.

Definition is_redirect (e : VerifyResetPassword.effect) : bool :=
  match e with
  | VerifyResetPassword.router_push _ => true
  | _ => false
  end.

Definition is_toast (e : VerifyResetPassword.effect) : bool :=
  match e with
  | VerifyResetPassword.toast _ => true
  | _ => false
  end.

Definition is_signIn (e : VerifyResetPassword.effect) : bool :=
  match e with
  | VerifyResetPassword.signIn _ _ => true
  | _ => false
  end.

(** How many of the effects satisfy a test. *)
Definition count (test : VerifyResetPassword.effect -> bool)
    (l : list VerifyResetPassword.effect) : nat :=
  length (List.filter test l).

(** Performing a list of effects, first to last. *)
Definition perform_all (l : list VerifyResetPassword.effect)
    (st : VerifyResetPassword.state) : VerifyResetPassword.state :=
  fold_left (fun st e => VerifyResetPassword.perform e st) l st.

Definition is_refresh (op : TokenManager.operation) : bool :=
  match op with
  | TokenManager.RefreshAccessToken _ => true
  | _ => false
  end.

End Spec.

(** ** Concrete clients, stores and collaborators for the examples *)

Module Sample.
Import JS.

(** A concrete engine for the examples: V8's wording of the [TypeError]. *)
Definition V8 : Runtime :=
  {| null_read_message k := "Cannot read properties of null (reading '" +:+ k +:+ "')" |}.

Definition localhost : ApiClient.ApiClient :=
  {| ApiClient.baseURL := "http://localhost:8080"; ApiClient.accessToken := None |}.

(** A network that answers every request with the same response. *)
Definition answering (ok : bool) (status : N) (statusText : string) (body : outcome value)
    : string -> ApiClient.RequestInit -> outcome ApiClient.Response :=
  fun _ _ =>
    Resolved {| ApiClient.ok := ok; ApiClient.status := status;
                ApiClient.statusText := statusText; ApiClient.json := body |}.

Definition signed_in : TokenManager.world :=
  {| TokenManager.window := true;
     TokenManager.localStorage := {[ "access_token" := "a0"; "refresh_token" := "r0" ]};
     TokenManager.refresh_calls := [] |}.

Definition signed_out : TokenManager.world :=
  {| TokenManager.window := true;
     TokenManager.localStorage := ∅;
     TokenManager.refresh_calls := [] |}.

Definition backend_down : string -> outcome AuthResponse.t :=
  fun _ => Rejected (ErrorObject "Error" "HTTP 401: Unauthorized" (Some (401%N, VObject []))).

Definition backend_up : string -> outcome AuthResponse.t :=
  fun _ =>
    Resolved {| AuthResponse.user := VObject [("id", VString "u1")];
                AuthResponse.access_token := "a1";
                AuthResponse.refresh_token := "r1";
                AuthResponse.expires_in := S754_finite false 900 0 |}.

Definition mounted (email newPassword confirmPassword : string)
    (sessionStorage : gmap string string) : VerifyResetPassword.state :=
  {| VerifyResetPassword.email := email;
     VerifyResetPassword.newPassword := newPassword;
     VerifyResetPassword.confirmPassword := confirmPassword;
     VerifyResetPassword.loading := false;
     VerifyResetPassword.isVerifying := false;
     VerifyResetPassword.sessionStorage := sessionStorage;
     VerifyResetPassword.effects := [] |}.

Definition otp_verified : gmap string string :=
  {[ "reset_password_email" := "user@example.com"; "verified_otp" := "123456" ]}.

Definition email_only : gmap string string :=
  {[ "reset_password_email" := "user@example.com" ]}.

Definition reset_accepted
    : VerifyResetPasswordRequest.t -> outcome VerifyResetPasswordResponse.t :=
  fun _ =>
    Resolved {| VerifyResetPasswordResponse.message := "Password reset successfully";
                VerifyResetPasswordResponse.user := VObject [("id", VString "u1")];
                VerifyResetPasswordResponse.access_token := "a1";
                VerifyResetPasswordResponse.refresh_token := "r1";
                VerifyResetPasswordResponse.expires_in := S754_finite false 900 0 |}.

Definition reset_rejected
    : VerifyResetPasswordRequest.t -> outcome VerifyResetPasswordResponse.t :=
  fun _ =>
    Rejected (ErrorObject "Error" "Invalid or expired OTP"
                (Some (400%N, VObject [("error", VObject [("message", VString "Invalid or expired OTP")])]))).

Definition bridge_accepts
    : string -> VerifyResetPassword.SignInOptions
      -> outcome (option VerifyResetPassword.SignInResponse) :=
  fun _ _ => Resolved (Some {| VerifyResetPassword.ok := true;
                               VerifyResetPassword.error := None |}).

Definition bridge_refuses
    : string -> VerifyResetPassword.SignInOptions
      -> outcome (option VerifyResetPassword.SignInResponse) :=
  fun _ _ => Resolved (Some {| VerifyResetPassword.ok := false;
                               VerifyResetPassword.error := Some "CredentialsSignin" |}).

Definition bridge_raises
    : string -> VerifyResetPassword.SignInOptions
      -> outcome (option VerifyResetPassword.SignInResponse) :=
  fun _ _ => Rejected (ErrorObject "TypeError" "Failed to fetch" None).

End Sample.

(** * Properties *)

Import JS Sample.

(** ** Truthiness and the [||] chain *)

Lemma nonempty_true_iff (s : string) : nonempty s = true <-> s <> "".
Proof. destruct s; simpl; split; congruence. Qed.

Lemma or_truthy_r (a b : js) : truthy b = true -> truthy (or a b) = true.
Proof. intros Hb. unfold or. destruct (truthy a) eqn:Ha; assumption. Qed.

Lemma truthy_undefined_string (o : js) :
  truthy (match o with Some (VString _) => o | _ => undefined end)
  = truthy (if type_tag_eqb (typeof o) Tstring then o else Some VNull).
Proof. destruct o as [[| | | | |]|]; reflexivity. Qed.

Lemma optional_get_get_in (k : string) (o : js) : optional_get k o = get_in k o.
Proof. destruct o as [[| | | | |]|]; reflexivity. Qed.

Lemma is_string_default (o : js) (phrase : string) :
  match o with Some (VString s) => s | _ => phrase end
  = default phrase (Spec.is_string o).
Proof. destruct o as [[| | | | |]|]; reflexivity. Qed.

(** ** The error normalizer *)

Section ErrorMessage.
Variables (errorData : value) (status : N) (statusText : string).

(** Whatever the body, the normalizer ends in a non-empty string. *)
Lemma errorMessage_nonempty :
  ApiClient.errorMessage errorData status statusText <> "".
Proof.
  apply nonempty_true_iff. unfold ApiClient.errorMessage.
  set (phrase := ApiClient.http_status_phrase status statusText).
  match goal with
  | |- nonempty (match ?m with _ => _ end) = true =>
      assert (Hm : truthy m = true); [| destruct m as [[| | | | |]|]; auto ]
  end.
  destruct (truthy (get "data" errorData) && _);
    repeat apply or_truthy_r; reflexivity.
Qed.

(** The code's chain and the priority list pick the same message. *)
Lemma errorMessage_first_truthy :
  ApiClient.errorMessage errorData status statusText
  = Spec.first_truthy_chain errorData status statusText.
Proof.
  unfold ApiClient.errorMessage, Spec.first_truthy_chain, Spec.candidates,
    Spec.first_truthy.
  set (phrase := ApiClient.http_status_phrase status statusText).
  set (data := get "data" errorData). set (error := get "error" errorData).
  rewrite !optional_get_get_in.
  assert (Hobj : truthy data && type_tag_eqb (typeof data) Tobject = Spec.is_object data).
  { destruct data as [[| [] | | | |]|]; simpl; rewrite ?andb_false_r; reflexivity. }
  rewrite Hobj. clear Hobj.
  pose proof (truthy_undefined_string error) as Herr.
  rewrite is_string_default.
  destruct (Spec.is_object data); simpl app; simpl find; unfold or;
    repeat match goal with
    | |- context [truthy ?x] =>
        lazymatch x with
        | Some (VString phrase) => fail
        | _ => destruct (truthy x) eqn:?
        end
    end; simpl;
    try reflexivity;
    try (destruct error as [[| | | | |]|]; simpl in *; congruence).
Qed.

End ErrorMessage.

(** ** The request client *)

Section Request.
Context `{Runtime}.
Variable fetch : string -> ApiClient.RequestInit -> outcome ApiClient.Response.
Variable this : ApiClient.ApiClient.
Variable endpoint : string.
Variable options : ApiClient.RequestInit.
Variable response : ApiClient.Response.
Hypothesis fetched :
  fetch (ApiClient.baseURL this +:+ endpoint) (ApiClient.request_config this options)
  = Resolved response.

(** C1 (as amended). On a successful response whose decoded body is [body]:
    when [body.data] is truthy the caller receives exactly [body.data], with
    no further unwrapping of it; when [body.data] is missing or falsy and the
    body is not [null], the caller receives the whole body. *)
Theorem request_unwraps_truthy_data (body : value) :
  ApiClient.ok response = true ->
  ApiClient.json response = Resolved body ->
  (forall inner, get "data" body = Some inner -> ToBoolean inner = true ->
     ApiClient.request fetch this endpoint options = Resolved inner)
  /\ (body <> VNull -> truthy (get "data" body) = false ->
     ApiClient.request fetch this endpoint options = Resolved body).
Proof.
  intros Hok Hjson. unfold ApiClient.request. rewrite fetched, Hok, Hjson. simpl.
  split.
  - intros inner Hget Htrue.
    destruct body; try discriminate Hget; rewrite Hget, Htrue; reflexivity.
  - intros Hnull Hfalsy.
    destruct body; try congruence;
      destruct (get "data" _) as [inner|] eqn:Hget; try reflexivity;
      simpl in Hfalsy; rewrite Hfalsy; reflexivity.
Qed.

(** C2. Every response that is not OK makes the request fail with an error
    whose message is a non-empty string, whatever the body decodes to and
    also when it does not decode; a [null] body fails with the engine's
    [TypeError], whose text is the engine's. *)
Theorem request_failure_message_nonempty :
  (forall k, null_read_message k <> "") ->
  ApiClient.ok response = false ->
  exists name message attached,
    ApiClient.request fetch this endpoint options
    = Rejected (ErrorObject name message attached)
    /\ message <> "".
Proof.
  intros Hengine Hok. unfold ApiClient.request. rewrite fetched, Hok. simpl.
  destruct (ApiClient.json response) as [[| | | | |]|];
    eexists _, _, _; (split; [reflexivity|]);
    first [apply Hengine | apply errorMessage_nonempty].
Qed.

(** C3 (as amended). On a response that is not OK, with [errorData] the
    decoded body (the empty object when it does not decode) and [errorData]
    not [null], the request fails with an [Error] whose message is the first
    truthy value among [data.message], [data.error.message] (both only when
    [errorData.data] is a non-null object), [errorData.message],
    [errorData.error.message] and [errorData.error] when that is a string, if
    that value is a string, and the phrase [HTTP <status>: <statusText>]
    otherwise; status and body are attached to the error. *)
Theorem request_failure_message_chain (errorData : value) :
  ApiClient.ok response = false ->
  errorData = match ApiClient.json response with
              | Resolved v => v
              | Rejected _ => VObject []
              end ->
  errorData <> VNull ->
  ApiClient.request fetch this endpoint options
  = Rejected
      (ErrorObject "Error"
         (Spec.first_truthy_chain errorData
            (ApiClient.status response) (ApiClient.statusText response))
         (Some (ApiClient.status response, errorData))).
Proof.
  intros Hok HerrorData Hnull. unfold ApiClient.request.
  rewrite fetched, Hok. simpl. rewrite <- HerrorData.
  rewrite errorMessage_first_truthy.
  destruct errorData; congruence.
Qed.

End Request.

(** Without an own [headers] property in [options], the request carries
    the default content type. *)
Lemma request_config_default_content_type this options :
  ApiClient.headers options = ApiClient.Absent ->
  ApiClient.spreadable (ApiClient.headers (ApiClient.request_config this options))
    !! "Content-Type" = Some "application/json".
Proof.
  intros Habsent. unfold ApiClient.request_config. rewrite Habsent.
  destruct (truthy_string _); reflexivity.
Qed.

(** A non-empty access token is attached as a bearer credential. *)
Lemma request_config_authorization this options token :
  ApiClient.accessToken this = Some token -> token <> "" ->
  ApiClient.spreadable (ApiClient.headers (ApiClient.request_config this options))
    !! "Authorization" = Some ("Bearer " +:+ token).
Proof.
  intros Htoken Hne. unfold ApiClient.request_config. rewrite Htoken. simpl.
  apply nonempty_true_iff in Hne. rewrite Hne. simpl. unfold ApiClient.spread.
  apply lookup_union_Some_l, lookup_singleton_eq.
Qed.

(** An own [headers] property of [options] is sent as it is when no token
    is held. *)
Lemma request_config_own_headers this options h :
  ApiClient.headers options = ApiClient.Present h ->
  truthy_string (ApiClient.accessToken this) = false ->
  ApiClient.headers (ApiClient.request_config this options) = ApiClient.Present h.
Proof.
  intros Hown Htoken. unfold ApiClient.request_config. rewrite Hown, Htoken.
  reflexivity.
Qed.

(** *** The request client on concrete responses *)

(** C1, counterexample. The body [{"data": 0}] has a [data] property, yet
    the caller receives the envelope and not [0]. *)
Lemma request_keeps_envelope_of_falsy_data :
  let body := VObject [("data", VNumber (S754_zero false))] in
  let returned :=
    @ApiClient.request V8 (answering true 200 "OK" (Resolved body))
      localhost "/api/v1/auth/login" ApiClient.no_options in
  get "data" body = Some (VNumber (S754_zero false))
  /\ returned = Resolved body
  /\ returned <> Resolved (Spec.unwrapped body).
Proof. repeat split. discriminate. Qed.

Lemma request_unwraps_truthy_data_witness :
  let inner := VObject [("data", VObject [("id", VString "u1")])] in
  let body := VObject [("data", inner)] in
  let fetch := answering true 200 "OK" (Resolved body) in
  get "data" body = Some inner
  /\ ToBoolean inner = true
  /\ @ApiClient.request V8 fetch localhost "/api/v1/auth/login" ApiClient.no_options
     = Resolved inner.
Proof.
  intros inner body fetch. split; [reflexivity | split; [reflexivity |]].
  apply (proj1 (@request_unwraps_truthy_data V8 fetch localhost
                  "/api/v1/auth/login" ApiClient.no_options _ eq_refl body
                  eq_refl eq_refl));
    reflexivity.
Defined.

Lemma request_failure_message_nonempty_witness :
  let body := VObject [("error", VObject [("code", VString "OTP_EXPIRED");
                                          ("message", VString "OTP expired")])] in
  let fetch := answering false 400 "Bad Request" (Resolved body) in
  exists name message attached,
    @ApiClient.request V8 fetch localhost "/api/v1/auth/verify-reset-password"
      ApiClient.no_options
    = Rejected (ErrorObject name message attached)
    /\ message <> "".
Proof.
  intros body fetch.
  apply (@request_failure_message_nonempty V8 fetch localhost
           "/api/v1/auth/verify-reset-password" ApiClient.no_options _ eq_refl).
  - intros k. simpl. discriminate.
  - reflexivity.
Defined.

(** C3, counterexample. With a [message] that is an object the code skips
    the string in [error]; with a string [error] under [data] it does not
    look at it. The chain of the specification yields ["Invalid OTP"] for
    both bodies, the code the HTTP phrase. *)
Lemma errorMessage_departs_from_fallback_chain :
  let object_message :=
    VObject [("message", VObject [("code", VString "E_OTP")]);
             ("error", VString "Invalid OTP")] in
  let wrapped_string :=
    VObject [("data", VObject [("error", VString "Invalid OTP")])] in
  let failing body :=
    @ApiClient.request V8 (answering false 400 "Bad Request" (Resolved body))
      localhost "/api/v1/auth/verify-reset-password" ApiClient.no_options in
  (failing object_message
   = Rejected (ErrorObject "Error" "HTTP 400: Bad Request" (Some (400%N, object_message)))
   /\ Spec.fallback_chain object_message 400 "Bad Request" = "Invalid OTP"
   /\ ApiClient.errorMessage object_message 400 "Bad Request"
      <> Spec.fallback_chain object_message 400 "Bad Request")
  /\
  (failing wrapped_string
   = Rejected (ErrorObject "Error" "HTTP 400: Bad Request" (Some (400%N, wrapped_string)))
   /\ Spec.fallback_chain wrapped_string 400 "Bad Request" = "Invalid OTP"
   /\ ApiClient.errorMessage wrapped_string 400 "Bad Request"
      <> Spec.fallback_chain wrapped_string 400 "Bad Request").
Proof. repeat split; discriminate. Qed.

Lemma request_failure_message_chain_witness :
  let body :=
    VObject [("message", VString "Request failed");
             ("data", VObject [("error", VObject [("message", VString "Email not found")])])] in
  let fetch := answering false 404 "Not Found" (Resolved body) in
  body <> VNull
  /\ @ApiClient.request V8 fetch localhost "/api/v1/auth/forgot-password"
       ApiClient.no_options
     = Rejected (ErrorObject "Error" "Email not found" (Some (404%N, body))).
Proof.
  intros body fetch. split; [discriminate |].
  apply (@request_failure_message_chain V8 fetch localhost
           "/api/v1/auth/forgot-password" ApiClient.no_options _ eq_refl body
           eq_refl eq_refl).
  discriminate.
Defined.

(** C10, at the failing input. Caller headers that do not mention
    [Content-Type] replace the merged record: the request goes out with the
    caller's header only. *)
Theorem request_config_loses_content_type :
  let options :=
    {| ApiClient.method := Some "GET"; ApiClient.body := None;
       ApiClient.headers := ApiClient.Present {[ "X-Request-Id" := "42" ]} |} in
  ApiClient.headers (ApiClient.request_config localhost options)
  = ApiClient.Present {[ "X-Request-Id" := "42" ]}
  /\ ApiClient.spreadable (ApiClient.headers (ApiClient.request_config localhost options))
       !! "Content-Type" = None
  /\ ApiClient.spreadable
       (ApiClient.headers
          (ApiClient.request_config (ApiClient.setAccessToken (Some "t0k3n") localhost) options))
     = {[ "X-Request-Id" := "42"; "Authorization" := "Bearer t0k3n" ]}.
Proof. repeat split. Qed.

(** The error shapes the backend is known to send, one by one. *)
Example errorMessage_flat :
  ApiClient.errorMessage (VObject [("message", VString "Invalid credentials")])
    401 "Unauthorized" = "Invalid credentials".
Proof. reflexivity. Qed.

Example errorMessage_nested_error :
  ApiClient.errorMessage
    (VObject [("error", VObject [("code", VString "E"); ("message", VString "OTP expired")])])
    400 "Bad Request" = "OTP expired".
Proof. reflexivity. Qed.

Example errorMessage_string_error :
  ApiClient.errorMessage (VObject [("error", VString "rate limited")])
    429 "Too Many Requests" = "rate limited".
Proof. reflexivity. Qed.

Example errorMessage_data_wrapper :
  ApiClient.errorMessage
    (VObject [("data", VObject [("error", VObject [("message", VString "Email not found")])])])
    404 "Not Found" = "Email not found".
Proof. reflexivity. Qed.

Example errorMessage_non_object :
  ApiClient.errorMessage (VString "Bad Gateway") 502 "Bad Gateway"
  = "HTTP 502: Bad Gateway".
Proof. reflexivity. Qed.

Example request_undecodable_error_body :
  @ApiClient.request V8
    (answering false 500 "Internal Server Error"
       (Rejected (ErrorObject "SyntaxError" "Unexpected token < in JSON" None)))
    localhost "/api/v1/auth/login" ApiClient.no_options
  = Rejected (ErrorObject "Error" "HTTP 500: Internal Server Error"
                (Some (500%N, VObject []))).
Proof. reflexivity. Qed.

Example request_null_success_body :
  @ApiClient.request V8 (answering true 200 "OK" (Resolved VNull))
    localhost "/api/v1/auth/login" ApiClient.no_options
  = Rejected (TypeError "Cannot read properties of null (reading 'data')").
Proof. reflexivity. Qed.

(** The endpoint methods pass no headers of their own, so what they send
    is JSON; and what the confirm-reset page is shown on a rejected OTP is
    the normalized message. *)
Example endpoint_requests_are_json this data :
  ApiClient.spreadable
    (ApiClient.headers (ApiClient.request_config this (ApiClient.POST data)))
    !! "Content-Type" = Some "application/json".
Proof. now apply request_config_default_content_type. Qed.

Example verifyResetPassword_rejected_otp :
  let body := VObject [("error", VObject [("message", VString "Invalid or expired OTP")])] in
  @ApiClient.verifyResetPassword V8 (answering false 400 "Bad Request" (Resolved body))
    localhost "user@example.com" "123456" "abcdef"
  = Rejected (ErrorObject "Error" "Invalid or expired OTP" (Some (400%N, body))).
Proof. reflexivity. Qed.

Example request_null_error_body :
  @ApiClient.request V8 (answering false 500 "Internal Server Error" (Resolved VNull))
    localhost "/api/v1/auth/login" ApiClient.no_options
  = Rejected (TypeError "Cannot read properties of null (reading 'message')").
Proof. reflexivity. Qed.

(** ** The token manager *)

Lemma token_keys_differ : TokenManager.ACCESS_TOKEN_KEY <> TokenManager.REFRESH_TOKEN_KEY.
Proof. discriminate. Qed.

Lemma lookup_setTokens_access a r (ls : gmap string string) :
  <[TokenManager.REFRESH_TOKEN_KEY := r]> (<[TokenManager.ACCESS_TOKEN_KEY := a]> ls)
    !! TokenManager.ACCESS_TOKEN_KEY = Some a.
Proof.
  rewrite lookup_insert_ne by (symmetry; exact token_keys_differ).
  apply lookup_insert_eq.
Qed.

Lemma lookup_setTokens_refresh a r (ls : gmap string string) :
  <[TokenManager.REFRESH_TOKEN_KEY := r]> (<[TokenManager.ACCESS_TOKEN_KEY := a]> ls)
    !! TokenManager.REFRESH_TOKEN_KEY = Some r.
Proof. apply lookup_insert_eq. Qed.

Lemma lookup_clearTokens_access (ls : gmap string string) :
  delete TokenManager.REFRESH_TOKEN_KEY (delete TokenManager.ACCESS_TOKEN_KEY ls)
    !! TokenManager.ACCESS_TOKEN_KEY = None.
Proof.
  rewrite lookup_delete_ne by (symmetry; exact token_keys_differ).
  apply lookup_delete_eq.
Qed.

Lemma lookup_clearTokens_refresh (ls : gmap string string) :
  delete TokenManager.REFRESH_TOKEN_KEY (delete TokenManager.ACCESS_TOKEN_KEY ls)
    !! TokenManager.REFRESH_TOKEN_KEY = None.
Proof. apply lookup_delete_eq. Qed.

Lemma getRefreshToken_window w rt :
  TokenManager.getRefreshToken w = Some rt -> TokenManager.window w = true.
Proof. unfold TokenManager.getRefreshToken. destruct (TokenManager.window w); congruence. Qed.

(** Each operation leaves the store alone, writes both slots, or removes
    both. *)
Lemma perform_both_or_none op w :
  TokenManager.localStorage (TokenManager.perform op w) = TokenManager.localStorage w
  \/ (exists a r,
        TokenManager.localStorage (TokenManager.perform op w)
        = <[TokenManager.REFRESH_TOKEN_KEY := r]>
            (<[TokenManager.ACCESS_TOKEN_KEY := a]> (TokenManager.localStorage w)))
  \/ TokenManager.localStorage (TokenManager.perform op w)
     = delete TokenManager.REFRESH_TOKEN_KEY
         (delete TokenManager.ACCESS_TOKEN_KEY (TokenManager.localStorage w)).
Proof.
  destruct op as [a r | | api]; simpl.
  - unfold TokenManager.setTokens. destruct (TokenManager.window w); simpl; eauto.
  - unfold TokenManager.clearTokens. destruct (TokenManager.window w); simpl; eauto.
  - unfold TokenManager.refreshAccessToken.
    destruct (TokenManager.getRefreshToken w) as [rt|] eqn:Hrt; [| now left].
    destruct (nonempty rt); simpl; [| now left].
    apply getRefreshToken_window in Hrt.
    destruct (api rt) as [response | error]; simpl;
      unfold TokenManager.setTokens, TokenManager.clearTokens; simpl;
      rewrite Hrt; simpl; eauto.
Qed.

Lemma perform_paired op w :
  TokenManager.paired (TokenManager.localStorage w) ->
  TokenManager.paired (TokenManager.localStorage (TokenManager.perform op w)).
Proof.
  intros Hw. destruct (perform_both_or_none op w) as [-> | [(a & r & ->) | ->]].
  - exact Hw.
  - unfold TokenManager.paired.
    rewrite lookup_setTokens_access, lookup_setTokens_refresh. split; eauto.
  - unfold TokenManager.paired.
    rewrite lookup_clearTokens_access, lookup_clearTokens_refresh. tauto.
Qed.

Section Refresh.
Variable apiClient_refreshToken : string -> outcome AuthResponse.t.
Variable w : TokenManager.world.

(** C4. Without a refresh token to send, [refreshAccessToken] returns
    [null] and nothing changes, the record of network calls included. With
    one, the backend is called once with it: when it answers, both returned
    tokens are stored and the new access token is returned; when it fails,
    both slots are removed and [null] is returned. *)
Theorem refreshAccessToken_outcomes :
  (truthy_string (TokenManager.getRefreshToken w) = false ->
     TokenManager.refreshAccessToken apiClient_refreshToken w = (None, w))
  /\ (forall refreshToken, TokenManager.getRefreshToken w = Some refreshToken ->
      refreshToken <> "" ->
      let w' := snd (TokenManager.refreshAccessToken apiClient_refreshToken w) in
      TokenManager.refresh_calls w' = (TokenManager.refresh_calls w ++ [refreshToken])%list
      /\ match apiClient_refreshToken refreshToken with
         | Resolved response =>
             fst (TokenManager.refreshAccessToken apiClient_refreshToken w)
             = Some (AuthResponse.access_token response)
             /\ TokenManager.localStorage w' !! TokenManager.ACCESS_TOKEN_KEY
                = Some (AuthResponse.access_token response)
             /\ TokenManager.localStorage w' !! TokenManager.REFRESH_TOKEN_KEY
                = Some (AuthResponse.refresh_token response)
         | Rejected _ =>
             fst (TokenManager.refreshAccessToken apiClient_refreshToken w) = None
             /\ TokenManager.localStorage w' !! TokenManager.ACCESS_TOKEN_KEY = None
             /\ TokenManager.localStorage w' !! TokenManager.REFRESH_TOKEN_KEY = None
         end).
Proof.
  split.
  - unfold TokenManager.refreshAccessToken.
    destruct (TokenManager.getRefreshToken w) as [rt|]; simpl; [| reflexivity].
    intros ->. reflexivity.
  - intros rt Hrt Hne. unfold TokenManager.refreshAccessToken. rewrite Hrt.
    apply nonempty_true_iff in Hne. rewrite Hne. simpl.
    apply getRefreshToken_window in Hrt.
    destruct (apiClient_refreshToken rt) as [response | error]; simpl;
      unfold TokenManager.setTokens, TokenManager.clearTokens; simpl;
      rewrite Hrt; simpl.
    + rewrite lookup_setTokens_access, lookup_setTokens_refresh. auto.
    + rewrite lookup_clearTokens_access, lookup_clearTokens_refresh. auto.
Qed.

End Refresh.

(** C5. Whatever operations are performed, in whatever order and against
    whatever backend, a store that held both tokens or none still holds
    both or none. *)
Theorem run_keeps_tokens_paired ops w :
  TokenManager.paired (TokenManager.localStorage w) ->
  TokenManager.paired (TokenManager.localStorage (TokenManager.run ops w)).
Proof.
  unfold TokenManager.run. revert w.
  induction ops as [| op ops IH]; intros w Hw; simpl.
  - exact Hw.
  - apply IH, perform_paired, Hw.
Qed.

(** *** The token manager on a concrete store *)

Lemma refreshAccessToken_outcomes_witness :
  TokenManager.getRefreshToken signed_in = Some "r0"
  /\ "r0" <> ""
  /\ (let w' := snd (TokenManager.refreshAccessToken backend_down signed_in) in
      TokenManager.refresh_calls w' = ["r0"]
      /\ fst (TokenManager.refreshAccessToken backend_down signed_in) = None
      /\ TokenManager.localStorage w' !! "access_token" = None
      /\ TokenManager.localStorage w' !! "refresh_token" = None)
  /\ (let w' := snd (TokenManager.refreshAccessToken backend_up signed_in) in
      TokenManager.refresh_calls w' = ["r0"]
      /\ fst (TokenManager.refreshAccessToken backend_up signed_in) = Some "a1"
      /\ TokenManager.localStorage w' !! "access_token" = Some "a1"
      /\ TokenManager.localStorage w' !! "refresh_token" = Some "r1").
Proof.
  split; [reflexivity |]. split; [discriminate |]. split.
  - exact (proj2 (refreshAccessToken_outcomes backend_down signed_in)
             "r0" eq_refl ltac:(discriminate)).
  - exact (proj2 (refreshAccessToken_outcomes backend_up signed_in)
             "r0" eq_refl ltac:(discriminate)).
Defined.

Lemma signed_out_paired : TokenManager.paired (TokenManager.localStorage signed_out).
Proof. split; intros [x Hx]; discriminate Hx. Defined.

Lemma run_keeps_tokens_paired_witness :
  TokenManager.paired (TokenManager.localStorage signed_out)
  /\ TokenManager.paired
       (TokenManager.localStorage
          (TokenManager.run
             [TokenManager.SetTokens "a0" "r0";
              TokenManager.RefreshAccessToken backend_up;
              TokenManager.RefreshAccessToken backend_down;
              TokenManager.RefreshAccessToken backend_up;
              TokenManager.SetTokens "a2" "r2";
              TokenManager.ClearTokens]
             signed_out)).
Proof.
  split; [exact signed_out_paired |].
  apply run_keeps_tokens_paired. exact signed_out_paired.
Defined.

(** A refresh that fails signs the user out; the next one sends nothing. *)
Example refresh_after_failure_is_silent :
  let w := TokenManager.run [TokenManager.RefreshAccessToken backend_down] signed_in in
  TokenManager.refreshAccessToken backend_up w = (None, w)
  /\ TokenManager.refresh_calls w = ["r0"].
Proof. split; reflexivity. Qed.

(** ** The confirm-reset step *)

Lemma truthy_string_Some (o : option string) :
  truthy_string o = true -> exists s, o = Some s /\ s <> "".
Proof.
  destruct o as [s|]; simpl; [| discriminate].
  intros Hs. exists s. split; [reflexivity | now apply nonempty_true_iff].
Qed.

Section Submit.
Variable apiClient :
  VerifyResetPasswordRequest.t -> outcome VerifyResetPasswordResponse.t.
Variable nextAuth :
  string -> VerifyResetPassword.SignInOptions
  -> outcome (option VerifyResetPassword.SignInResponse).
Variable st : VerifyResetPassword.state.

Let st' := VerifyResetPassword.verifyResetPassword apiClient nextAuth st.

(** The request the handler sends once the validations have passed. *)
Let request_of (otp : string) : VerifyResetPasswordRequest.t :=
  {| VerifyResetPasswordRequest.email := VerifyResetPassword.email st;
     VerifyResetPasswordRequest.otp_code := otp;
     VerifyResetPasswordRequest.new_password := VerifyResetPassword.newPassword st |}.

Let options_of (response : VerifyResetPasswordResponse.t) : VerifyResetPassword.SignInOptions :=
  {| VerifyResetPassword.accessToken := VerifyResetPasswordResponse.access_token response;
     VerifyResetPassword.refreshToken := VerifyResetPasswordResponse.refresh_token response;
     VerifyResetPassword.redirect := false |}.

(** The code tests the five conditions the list of validations names. *)
Lemma first_failure_None :
  Spec.first_failure st = None ->
  nonempty (VerifyResetPassword.email st) = true
  /\ nonempty (VerifyResetPassword.newPassword st) = true
  /\ nonempty (VerifyResetPassword.confirmPassword st) = true
  /\ String.eqb (VerifyResetPassword.newPassword st)
                (VerifyResetPassword.confirmPassword st) = true
  /\ Nat.ltb (utf16_length (VerifyResetPassword.newPassword st)) 6 = false
  /\ truthy_string (VerifyResetPassword.sessionStorage st !! "verified_otp") = true.
Proof.
  unfold Spec.first_failure, Spec.validations, find, Spec.passes.
  rewrite Nat.ltb_antisym.
  destruct (nonempty (VerifyResetPassword.email st)); [| discriminate].
  destruct (nonempty (VerifyResetPassword.newPassword st)); [| discriminate].
  destruct (nonempty (VerifyResetPassword.confirmPassword st)); [| discriminate].
  destruct (String.eqb _ _); [| discriminate].
  destruct (Nat.leb 6 (utf16_length _)); [| discriminate].
  destruct (truthy_string _); [| discriminate].
  auto 10.
Qed.

(** The handler, once the validations have passed. *)
Lemma verifyResetPassword_validated :
  Spec.first_failure st = None ->
  exists otp,
    VerifyResetPassword.sessionStorage st !! "verified_otp" = Some otp
    /\ otp <> ""
    /\ st' =
       let st1 :=
         VerifyResetPassword.perform
           (VerifyResetPassword.apiClient_verifyResetPassword (request_of otp))
           (VerifyResetPassword.setLoading true
              (VerifyResetPassword.setIsVerifying true st)) in
       VerifyResetPassword.setIsVerifying false
         (VerifyResetPassword.setLoading false
            match apiClient (request_of otp) with
            | Resolved response =>
                let st2 :=
                  VerifyResetPassword.perform
                    (VerifyResetPassword.signIn "credentials" (options_of response))
                    (VerifyResetPassword.removeItem "verified_otp"
                       (VerifyResetPassword.removeItem "reset_password_email"
                          (VerifyResetPassword.perform
                             (VerifyResetPassword.toast VerifyResetPassword.toast_success)
                             st1))) in
                match nextAuth "credentials" (options_of response) with
                | Resolved loginResult =>
                    if VerifyResetPassword.loginResult_ok loginResult then
                      VerifyResetPassword.perform (VerifyResetPassword.router_push "/") st2
                    else
                      VerifyResetPassword.perform
                        (VerifyResetPassword.router_push "auth/login")
                        (VerifyResetPassword.perform
                           (VerifyResetPassword.toast VerifyResetPassword.toast_login_manually)
                           st2)
                | Rejected _ =>
                    VerifyResetPassword.perform
                      (VerifyResetPassword.router_push "/auth/login")
                      (VerifyResetPassword.perform
                         (VerifyResetPassword.toast VerifyResetPassword.toast_login_manually)
                         st2)
                end
            | Rejected error =>
                VerifyResetPassword.setIsVerifying false
                  (VerifyResetPassword.removeItem "verified_otp"
                     (VerifyResetPassword.perform
                        (VerifyResetPassword.toast (VerifyResetPassword.toast_failed error))
                        st1))
            end).
Proof.
  intros Hpass.
  destruct (first_failure_None Hpass) as (He & Hn & Hc & Heq & Hlen & Hotp).
  destruct (truthy_string_Some _ Hotp) as (otp & Hget & Hne).
  exists otp. split; [exact Hget |]. split; [exact Hne |].
  subst st'. unfold VerifyResetPassword.verifyResetPassword, VerifyResetPassword.getItem.
  rewrite He, Hn, Hc, Heq, Hlen, Hotp, Hget. reflexivity.
Qed.

(** C6. The five validations run in the listed order before anything is
    sent. When one fails, the handler shows that validation's message (and,
    for a missing OTP, goes back to the OTP step), sends nothing to the
    backend and leaves the flow state as it was. When all pass, the first
    thing the handler does is call the backend, once, with the email, the
    stored OTP as [otp_code] and the new password. *)
Theorem verifyResetPassword_validates_first :
  (forall v, Spec.first_failure st = Some v ->
     VerifyResetPassword.effects st'
     = (VerifyResetPassword.effects st ++ Spec.rejection v)%list
     /\ existsb Spec.is_backend_call (Spec.rejection v) = false
     /\ VerifyResetPassword.sessionStorage st' = VerifyResetPassword.sessionStorage st)
  /\ (Spec.first_failure st = None ->
      exists otp rest,
        VerifyResetPassword.sessionStorage st !! "verified_otp" = Some otp
        /\ VerifyResetPassword.effects st'
           = (VerifyResetPassword.effects st
              ++ VerifyResetPassword.apiClient_verifyResetPassword (request_of otp) :: rest)%list
        /\ existsb Spec.is_backend_call rest = false).
Proof.
  split.
  - intros v. subst st'.
    unfold Spec.first_failure, Spec.validations, find, Spec.passes,
      VerifyResetPassword.verifyResetPassword, VerifyResetPassword.getItem.
    rewrite Nat.ltb_antisym.
    destruct (nonempty (VerifyResetPassword.email st));
      [| intros [= <-]; repeat split].
    destruct (nonempty (VerifyResetPassword.newPassword st));
      [| intros [= <-]; repeat split].
    destruct (nonempty (VerifyResetPassword.confirmPassword st));
      [| intros [= <-]; repeat split].
    destruct (String.eqb _ _); [| intros [= <-]; repeat split].
    destruct (Nat.leb 6 (utf16_length _)); [| intros [= <-]; repeat split].
    destruct (truthy_string _); [discriminate | intros [= <-]; simpl].
    rewrite <- app_assoc. repeat split.
  - intros Hpass.
    destruct (verifyResetPassword_validated Hpass) as (otp & Hget & _ & ->).
    exists otp.
    destruct (apiClient (request_of otp)) as [response | error];
      [destruct (nextAuth "credentials" (options_of response)) as [loginResult | loginError];
       [destruct (VerifyResetPassword.loginResult_ok loginResult) |] |];
      simpl; rewrite <- !app_assoc; simpl;
      eexists; (split; [exact Hget |]); (split; [reflexivity |]); reflexivity.
Qed.

(** When the backend accepts the reset, both flow fields are removed, and
    removed before the session bridge is called, whatever the bridge then
    does. *)
Lemma verifyResetPassword_success_clears_flow_state otp response :
  Spec.first_failure st = None ->
  VerifyResetPassword.sessionStorage st !! "verified_otp" = Some otp ->
  apiClient (request_of otp) = Resolved response ->
  VerifyResetPassword.sessionStorage st'
  = delete "verified_otp" (delete "reset_password_email" (VerifyResetPassword.sessionStorage st))
  /\ VerifyResetPassword.effects st'
     = (VerifyResetPassword.effects st
        ++ [VerifyResetPassword.apiClient_verifyResetPassword (request_of otp);
            VerifyResetPassword.toast VerifyResetPassword.toast_success;
            VerifyResetPassword.sessionStorage_removeItem "reset_password_email";
            VerifyResetPassword.sessionStorage_removeItem "verified_otp";
            VerifyResetPassword.signIn "credentials" (options_of response)]
        ++ match nextAuth "credentials" (options_of response) with
           | Resolved loginResult =>
               if VerifyResetPassword.loginResult_ok loginResult then
                 [VerifyResetPassword.router_push "/"]
               else
                 [VerifyResetPassword.toast VerifyResetPassword.toast_login_manually;
                  VerifyResetPassword.router_push "auth/login"]
           | Rejected _ =>
               [VerifyResetPassword.toast VerifyResetPassword.toast_login_manually;
                VerifyResetPassword.router_push "/auth/login"]
           end)%list.
Proof.
  intros Hpass Hotp Hresponse.
  destruct (verifyResetPassword_validated Hpass) as (otp' & Hget & _ & ->).
  assert (otp' = otp) as -> by congruence.
  rewrite Hresponse.
  destruct (nextAuth "credentials" (options_of response)) as [loginResult | loginError];
    [destruct (VerifyResetPassword.loginResult_ok loginResult) |];
    simpl; rewrite <- !app_assoc; split; reflexivity.
Qed.

(** C8. When the backend call fails with an [Error], the handler shows that
    error's message, removes [verified_otp] and nothing else from the flow
    state, does not navigate, and leaves the form as it was, no longer
    loading. *)
Theorem verifyResetPassword_failure_keeps_email otp name message attached :
  Spec.first_failure st = None ->
  VerifyResetPassword.sessionStorage st !! "verified_otp" = Some otp ->
  apiClient (request_of otp) = Rejected (ErrorObject name message attached) ->
  VerifyResetPassword.sessionStorage st'
  = delete "verified_otp" (VerifyResetPassword.sessionStorage st)
  /\ VerifyResetPassword.sessionStorage st' !! "verified_otp" = None
  /\ VerifyResetPassword.sessionStorage st' !! "reset_password_email"
     = VerifyResetPassword.sessionStorage st !! "reset_password_email"
  /\ (exists shown,
        VerifyResetPassword.effects st'
        = (VerifyResetPassword.effects st
           ++ [VerifyResetPassword.apiClient_verifyResetPassword (request_of otp);
               VerifyResetPassword.toast shown;
               VerifyResetPassword.sessionStorage_removeItem "verified_otp"])%list
        /\ VerifyResetPassword.description shown = message
        /\ VerifyResetPassword.variant shown = VerifyResetPassword.destructive)
  /\ VerifyResetPassword.email st' = VerifyResetPassword.email st
  /\ VerifyResetPassword.render st' = VerifyResetPassword.Form
  /\ VerifyResetPassword.loading st' = false
  /\ VerifyResetPassword.isVerifying st' = false.
Proof.
  intros Hpass Hotp Herror.
  destruct (first_failure_None Hpass) as (He & _).
  destruct (verifyResetPassword_validated Hpass) as (otp' & Hget & _ & ->).
  assert (otp' = otp) as -> by congruence.
  rewrite Herror. simpl.
  split; [reflexivity |].
  split; [apply lookup_delete_eq |].
  split; [apply lookup_delete_ne; discriminate |].
  split.
  - eexists. rewrite <- !app_assoc. simpl. repeat split.
  - unfold VerifyResetPassword.render. simpl. rewrite He. repeat split.
Qed.

End Submit.

(** *** The entry guard *)

Section Guard.
Variable st : VerifyResetPassword.state.

Let storedEmail := VerifyResetPassword.sessionStorage st !! "reset_password_email".
Let verifiedOtp := VerifyResetPassword.sessionStorage st !! "verified_otp".

(** With an email and no verified OTP the guard goes to the OTP step. *)
Lemma useEffect_without_otp :
  truthy_string storedEmail = true -> truthy_string verifiedOtp = false ->
  VerifyResetPassword.effects (VerifyResetPassword.useEffect st)
  = (VerifyResetPassword.effects st
     ++ [VerifyResetPassword.router_push "/auth/verify-otp-reset"])%list.
Proof.
  subst storedEmail verifiedOtp. intros He Ho.
  unfold VerifyResetPassword.useEffect, VerifyResetPassword.getItem.
  rewrite He, Ho. reflexivity.
Qed.

(** With a verified OTP and no email it goes to the request-reset step. *)
Lemma useEffect_without_email :
  truthy_string storedEmail = false -> truthy_string verifiedOtp = true ->
  VerifyResetPassword.effects (VerifyResetPassword.useEffect st)
  = (VerifyResetPassword.effects st
     ++ [VerifyResetPassword.router_push "/auth/reset-password"])%list.
Proof.
  subst storedEmail verifiedOtp. intros He Ho.
  unfold VerifyResetPassword.useEffect, VerifyResetPassword.getItem.
  rewrite He, Ho. reflexivity.
Qed.

(** With neither, it asks for both navigations, the OTP step last. *)
Lemma useEffect_without_both :
  truthy_string storedEmail = false -> truthy_string verifiedOtp = false ->
  VerifyResetPassword.effects (VerifyResetPassword.useEffect st)
  = (VerifyResetPassword.effects st
     ++ [VerifyResetPassword.router_push "/auth/reset-password";
         VerifyResetPassword.router_push "/auth/verify-otp-reset"])%list.
Proof.
  subst storedEmail verifiedOtp. intros He Ho.
  unfold VerifyResetPassword.useEffect, VerifyResetPassword.getItem.
  rewrite He, Ho. simpl. now rewrite <- app_assoc.
Qed.

(** With both, it stays and shows the form for the stored email. *)
Lemma useEffect_with_both email otp :
  storedEmail = Some email -> email <> "" -> verifiedOtp = Some otp -> otp <> "" ->
  VerifyResetPassword.effects (VerifyResetPassword.useEffect st)
  = VerifyResetPassword.effects st
  /\ VerifyResetPassword.email (VerifyResetPassword.useEffect st) = email
  /\ VerifyResetPassword.render (VerifyResetPassword.useEffect st)
     = VerifyResetPassword.Form.
Proof.
  subst storedEmail verifiedOtp. intros He Hne Ho Hno.
  apply nonempty_true_iff in Hne, Hno.
  unfold VerifyResetPassword.useEffect, VerifyResetPassword.getItem,
    VerifyResetPassword.render.
  rewrite He, Ho. simpl. rewrite Hne, Hno. simpl. now rewrite Hne.
Qed.

End Guard.

(** *** The confirm-reset step on concrete inputs *)

Lemma verifyResetPassword_validates_first_witness :
  let st := mounted "user@example.com" "abc12" "abc12" otp_verified in
  Spec.first_failure st = Some Spec.password_long_enough
  /\ VerifyResetPassword.effects
       (VerifyResetPassword.verifyResetPassword reset_accepted bridge_accepts st)
     = [VerifyResetPassword.toast VerifyResetPassword.toast_password_short]
  /\ VerifyResetPassword.sessionStorage
       (VerifyResetPassword.verifyResetPassword reset_accepted bridge_accepts st)
     = otp_verified.
Proof.
  intros st. split; [reflexivity |].
  destruct (proj1 (verifyResetPassword_validates_first reset_accepted bridge_accepts st)
              Spec.password_long_enough eq_refl) as (Heffects & _ & Hstorage).
  split; [exact Heffects | exact Hstorage].
Defined.

(** The three rejections the specification gives as examples. *)
Example short_password_rejected_locally :
  Spec.first_failure (mounted "user@example.com" "abc12" "abc12" otp_verified)
  = Some Spec.password_long_enough.
Proof. reflexivity. Qed.

(** [.length] counts code units, not bytes and not characters. *)
Example accented_password_units : utf16_length "ééééé" = 5.
Proof. reflexivity. Qed.

Example euro_password_units : utf16_length "€€€€€" = 5.
Proof. reflexivity. Qed.

Example astral_password_units : utf16_length "😀😀😀" = 6.
Proof. reflexivity. Qed.

Example accented_short_password_rejected_locally :
  let st := mounted "user@example.com" "ééééé" "ééééé" otp_verified in
  Spec.first_failure st = Some Spec.password_long_enough
  /\ VerifyResetPassword.effects
       (VerifyResetPassword.verifyResetPassword reset_accepted bridge_accepts st)
     = [VerifyResetPassword.toast VerifyResetPassword.toast_password_short].
Proof. split; reflexivity. Qed.

Example astral_password_accepted_locally :
  Spec.first_failure (mounted "user@example.com" "😀😀😀" "😀😀😀" otp_verified) = None.
Proof. reflexivity. Qed.

Example mismatch_rejected_locally :
  Spec.first_failure (mounted "user@example.com" "abcdef" "abcdeg" otp_verified)
  = Some Spec.passwords_equal.
Proof. reflexivity. Qed.

Example missing_otp_redirects :
  let st := mounted "user@example.com" "abcdef" "abcdef" email_only in
  Spec.first_failure st = Some Spec.otp_present
  /\ VerifyResetPassword.effects
       (VerifyResetPassword.verifyResetPassword reset_accepted bridge_accepts st)
     = [VerifyResetPassword.toast VerifyResetPassword.toast_otp_missing;
        VerifyResetPassword.router_push "/auth/verify-otp-reset"].
Proof. split; reflexivity. Qed.

Lemma verifyResetPassword_failure_keeps_email_witness :
  let st := mounted "user@example.com" "abcdef" "abcdef" otp_verified in
  let st' := VerifyResetPassword.verifyResetPassword reset_rejected bridge_accepts st in
  Spec.first_failure st = None
  /\ VerifyResetPassword.sessionStorage st' = email_only
  /\ VerifyResetPassword.effects st'
     = [VerifyResetPassword.apiClient_verifyResetPassword
          {| VerifyResetPasswordRequest.email := "user@example.com";
             VerifyResetPasswordRequest.otp_code := "123456";
             VerifyResetPasswordRequest.new_password := "abcdef" |};
        VerifyResetPassword.toast
          {| VerifyResetPassword.title := "❌ Verifikasi Gagal";
             VerifyResetPassword.description := "Invalid or expired OTP";
             VerifyResetPassword.variant := Some "destructive" |};
        VerifyResetPassword.sessionStorage_removeItem "verified_otp"].
Proof.
  intros st st'. split; [reflexivity |].
  destruct (verifyResetPassword_failure_keeps_email reset_rejected bridge_accepts st
              "123456" "Error" "Invalid or expired OTP" _ eq_refl eq_refl eq_refl)
    as (Hstorage & _ & _ & (shown & Heffects & _) & _).
  split; [exact Hstorage | reflexivity].
Defined.

(** C7, at the failing input. The backend accepts the reset and the session
    bridge reports failure: the flow state is cleared before the bridge is
    called and no failure is shown, but the navigation asked for is the
    relative [auth/login], where the path taken when the bridge raises asks
    for [/auth/login]. *)
Theorem auto_login_refused_pushes_relative_href :
  let st := mounted "user@example.com" "abcdef" "abcdef" otp_verified in
  let refused := VerifyResetPassword.verifyResetPassword reset_accepted bridge_refuses st in
  let raised := VerifyResetPassword.verifyResetPassword reset_accepted bridge_raises st in
  let options :=
    {| VerifyResetPassword.accessToken := "a1";
       VerifyResetPassword.refreshToken := "r1";
       VerifyResetPassword.redirect := false |} in
  VerifyResetPassword.effects refused
  = [VerifyResetPassword.apiClient_verifyResetPassword
       {| VerifyResetPasswordRequest.email := "user@example.com";
          VerifyResetPasswordRequest.otp_code := "123456";
          VerifyResetPasswordRequest.new_password := "abcdef" |};
     VerifyResetPassword.toast VerifyResetPassword.toast_success;
     VerifyResetPassword.sessionStorage_removeItem "reset_password_email";
     VerifyResetPassword.sessionStorage_removeItem "verified_otp";
     VerifyResetPassword.signIn "credentials" options;
     VerifyResetPassword.toast VerifyResetPassword.toast_login_manually;
     VerifyResetPassword.router_push "auth/login"]
  /\ VerifyResetPassword.sessionStorage refused = ∅
  /\ last (VerifyResetPassword.effects raised)
     = Some (VerifyResetPassword.router_push "/auth/login")
  /\ VerifyResetPassword.sessionStorage raised = ∅.
Proof. repeat split. Qed.

(** C9, at the failing input. With neither an email nor a verified OTP in
    the session store the guard asks for the request-reset step and then
    for the OTP step: the navigation left standing is the one to the OTP
    step. *)
Theorem useEffect_empty_store_ends_on_otp_step :
  let st := VerifyResetPassword.useEffect (mounted "" "" "" ∅) in
  VerifyResetPassword.effects st
  = [VerifyResetPassword.router_push "/auth/reset-password";
     VerifyResetPassword.router_push "/auth/verify-otp-reset"]
  /\ last (VerifyResetPassword.effects st)
     = Some (VerifyResetPassword.router_push "/auth/verify-otp-reset")
  /\ VerifyResetPassword.render st = VerifyResetPassword.Loading.
Proof. repeat split. Qed.

(** * Further properties *)

(** ** The request client: what a caller can rely on *)

Section RequestOutcomes.
Context `{Runtime}.
Variable fetch : string -> ApiClient.RequestInit -> outcome ApiClient.Response.
Variable this : ApiClient.ApiClient.
Variable endpoint : string.
Variable options : ApiClient.RequestInit.

Let url := ApiClient.baseURL this +:+ endpoint.
Let config := ApiClient.request_config this options.

(** What a resolved request tells about the exchange behind it. *)
Lemma request_resolved_shape (v : value) :
  ApiClient.request fetch this endpoint options = Resolved v ->
  exists response body,
    fetch url config = Resolved response
    /\ ApiClient.ok response = true
    /\ ApiClient.json response = Resolved body
    /\ body <> VNull
    /\ ((get "data" body = Some v /\ ToBoolean v = true)
        \/ (v = body /\ truthy (get "data" body) = false)).
Proof.
  subst url config. unfold ApiClient.request.
  destruct (fetch _ _) as [response | e]; [| discriminate].
  destruct (ApiClient.ok response) eqn:Hok; simpl.
  - destruct (ApiClient.json response) as [body | e] eqn:Hjson; [| discriminate].
    intros Hres. exists response, body.
    repeat (split; [first [reflexivity | assumption] |]).
    destruct body; try discriminate Hres;
      (split; [discriminate |]);
      simpl in *;
      try (injection Hres as <-; right; split; reflexivity).
    destruct (assoc "data" properties) as [inner |] eqn:Hget.
    + destruct (ToBoolean inner) eqn:Hinner; injection Hres as <-.
      * left. split; [reflexivity | assumption].
      * right. split; [reflexivity | assumption].
    + injection Hres as <-. right. split; reflexivity.
  - destruct (match ApiClient.json response with
              | Resolved v0 => v0
              | Rejected _ => VObject []
              end); discriminate.
Qed.

(** X1. A request resolves only on an OK response whose body decodes to
    something other than [null]; what it resolves to is the body's truthy
    [data], or the body itself when it has no truthy [data]. *)
Theorem request_resolved_inversion (v : value) :
  ApiClient.request fetch this endpoint options = Resolved v ->
  exists response body,
    fetch url config = Resolved response
    /\ ApiClient.ok response = true
    /\ ApiClient.json response = Resolved body
    /\ body <> VNull
    /\ ((get "data" body = Some v /\ ToBoolean v = true)
        \/ (v = body /\ truthy (get "data" body) = false)).
Proof. exact (request_resolved_shape v). Qed.

(** X2. A request never resolves to [null]: the caller may read properties
    of what it receives. *)
Theorem request_never_resolves_null (v : value) :
  ApiClient.request fetch this endpoint options = Resolved v -> v <> VNull.
Proof.
  intros Hres.
  destruct (request_resolved_shape v Hres)
    as (response & body & _ & _ & _ & Hbody & [[_ Htrue] | [-> _]]).
  - intros ->. discriminate Htrue.
  - exact Hbody.
Qed.

End RequestOutcomes.

(** X3. The [data] envelope is transparent for a truthy payload that has
    no truthy [data] of its own: sent bare or wrapped as [{data: payload}],
    the caller receives the payload. *)
Theorem request_envelope_transparent `{Runtime} this endpoint options status statusText
    (payload : value) :
  ToBoolean payload = true ->
  truthy (get "data" payload) = false ->
  ApiClient.request
    (answering true status statusText (Resolved (VObject [("data", payload)])))
    this endpoint options = Resolved payload
  /\ ApiClient.request (answering true status statusText (Resolved payload))
       this endpoint options = Resolved payload.
Proof.
  intros Htrue Hdata. unfold ApiClient.request, answering. simpl. rewrite Htrue.
  split; [reflexivity |].
  destruct payload; try discriminate Htrue; try reflexivity.
  simpl in *. destruct (assoc "data" properties) as [inner |]; [| reflexivity].
  simpl in Hdata. now rewrite Hdata.
Qed.

(** ** The error normalizer: precedence *)

Section Precedence.
Variables (body : value) (status : N) (statusText : string).

(** X4. A [data] wrapper overrides everything outside it: a non-empty
    string [data.message] is the message; failing a truthy [data.message],
    a non-empty string [data.error.message] is. *)
Theorem errorMessage_data_wrapper_wins (fields : list (string * value)) (m : string) :
  get "data" body = Some (VObject fields) ->
  m <> "" ->
  (assoc "message" fields = Some (VString m)
   \/ (truthy (assoc "message" fields) = false
       /\ get_in "message" (assoc "error" fields) = Some (VString m))) ->
  ApiClient.errorMessage body status statusText = m.
Proof.
  intros Hdata Hm Hcase. apply nonempty_true_iff in Hm.
  rewrite errorMessage_first_truthy.
  unfold Spec.first_truthy_chain, Spec.first_truthy, Spec.candidates.
  rewrite Hdata. simpl.
  destruct Hcase as [-> | [-> ->]]; simpl; rewrite Hm; reflexivity.
Qed.

(** X5. Without a [data] wrapper, a non-empty string [message] is the
    message whatever [error] holds; failing a truthy [message], a non-empty
    string [error.message] is; failing that too, a non-empty string
    [error]. *)
Theorem errorMessage_outer_order (m : string) :
  Spec.is_object (get "data" body) = false ->
  m <> "" ->
  (get "message" body = Some (VString m)
   \/ (truthy (get "message" body) = false
       /\ (get_in "message" (get "error" body) = Some (VString m)
           \/ get "error" body = Some (VString m)))) ->
  ApiClient.errorMessage body status statusText = m.
Proof.
  intros Hdata Hm Hcase. apply nonempty_true_iff in Hm.
  rewrite errorMessage_first_truthy.
  unfold Spec.first_truthy_chain, Spec.first_truthy, Spec.candidates.
  rewrite Hdata. simpl.
  destruct Hcase as [-> | [-> [-> | ->]]]; simpl; rewrite Hm; reflexivity.
Qed.

(** X6. A body with none of [message], [error] and [data] (an empty
    object, a string, a number, an array) gives the HTTP phrase. *)
Theorem errorMessage_without_fields :
  get "message" body = undefined ->
  get "error" body = undefined ->
  get "data" body = undefined ->
  ApiClient.errorMessage body status statusText
  = ApiClient.http_status_phrase status statusText.
Proof.
  intros Hm He Hd. unfold ApiClient.errorMessage. rewrite Hm, He, Hd. reflexivity.
Qed.

End Precedence.

(** ** The request configuration *)

Section Config.
Variable this : ApiClient.ApiClient.
Variable options : ApiClient.RequestInit.

Let sent := ApiClient.spreadable (ApiClient.headers (ApiClient.request_config this options)).

(** X7. What an endpoint method puts on the wire: method [POST], the
    stringified body, the JSON content type, and the bearer credential
    exactly when a non-empty token is held; no other header. *)
Theorem request_config_POST (data : value) :
  ApiClient.request_config this (ApiClient.POST data)
  = {| ApiClient.method := Some "POST";
       ApiClient.body := Some (ApiClient.JSON_stringify data);
       ApiClient.headers :=
         ApiClient.Present
           (match ApiClient.accessToken this with
            | Some token =>
                if nonempty token then
                  {[ "Content-Type" := "application/json";
                     "Authorization" := "Bearer " +:+ token ]}
                else {[ "Content-Type" := "application/json" ]}
            | None => {[ "Content-Type" := "application/json" ]}
            end) |}.
Proof.
  unfold ApiClient.request_config, ApiClient.POST. simpl.
  destruct (ApiClient.accessToken this) as [token |]; simpl; [| reflexivity].
  destruct (nonempty token); reflexivity.
Qed.

(** X8. Method and body are passed on as given, and a client that holds
    no token (none, or the empty string) adds no [Authorization] header:
    the one sent is the caller's, if any. *)
Theorem request_config_without_token :
  ApiClient.method (ApiClient.request_config this options) = ApiClient.method options
  /\ ApiClient.body (ApiClient.request_config this options) = ApiClient.body options
  /\ (truthy_string (ApiClient.accessToken this) = false ->
      sent !! "Authorization"
      = ApiClient.spreadable (ApiClient.headers options) !! "Authorization").
Proof.
  subst sent. unfold ApiClient.request_config.
  destruct (truthy_string (ApiClient.accessToken this)); simpl.
  - repeat split. discriminate.
  - repeat split. intros _.
    destruct (ApiClient.headers options); reflexivity.
Qed.

(** X9. When the caller supplies its headers as a plain object, every
    header in it is sent with the caller's value, whatever token is held,
    except [Authorization], which the client's token replaces. *)
Theorem request_config_keeps_caller_headers (h : gmap string string) (k v : string) :
  ApiClient.headers options = ApiClient.Present h ->
  h !! k = Some v ->
  k <> "Authorization" ->
  sent !! k = Some v.
Proof.
  subst sent. intros Hown Hk Hne. unfold ApiClient.request_config. rewrite Hown.
  destruct (truthy_string (ApiClient.accessToken this)); simpl; [| exact Hk].
  unfold ApiClient.spread. rewrite lookup_union_r; [exact Hk |].
  apply lookup_singleton_ne. congruence.
Qed.

End Config.

(** *** Witnesses on concrete exchanges *)

Lemma request_resolved_inversion_witness :
  let body := VObject [("data", VObject [("access_token", VString "a1")])] in
  let fetch := answering true 200 "OK" (Resolved body) in
  exists response body',
    fetch ("http://localhost:8080" +:+ "/api/v1/auth/login")
      (ApiClient.request_config localhost ApiClient.no_options) = Resolved response
    /\ ApiClient.ok response = true
    /\ ApiClient.json response = Resolved body'
    /\ body' <> VNull
    /\ ((get "data" body' = Some (VObject [("access_token", VString "a1")])
         /\ ToBoolean (VObject [("access_token", VString "a1")]) = true)
        \/ (VObject [("access_token", VString "a1")] = body'
            /\ truthy (get "data" body') = false)).
Proof.
  intros body fetch.
  exact (@request_resolved_inversion V8 fetch localhost "/api/v1/auth/login"
           ApiClient.no_options (VObject [("access_token", VString "a1")]) eq_refl).
Defined.

Lemma request_never_resolves_null_witness :
  let payload := VObject [("message", VString "ok")] in
  let fetch := answering true 200 "OK" (Resolved payload) in
  @ApiClient.request V8 fetch localhost "/api/v1/auth/resend-otp" ApiClient.no_options
  = Resolved payload
  /\ payload <> VNull.
Proof.
  intros payload fetch. split; [reflexivity |].
  exact (@request_never_resolves_null V8 fetch localhost "/api/v1/auth/resend-otp"
           ApiClient.no_options payload eq_refl).
Defined.

Lemma request_envelope_transparent_witness :
  let payload := VObject [("message", VString "OTP sent")] in
  @ApiClient.request V8 (answering true 200 "OK" (Resolved (VObject [("data", payload)])))
    localhost "/api/v1/auth/resend-otp" ApiClient.no_options = Resolved payload
  /\ @ApiClient.request V8 (answering true 200 "OK" (Resolved payload))
       localhost "/api/v1/auth/resend-otp" ApiClient.no_options = Resolved payload.
Proof.
  intros payload.
  exact (@request_envelope_transparent V8 localhost "/api/v1/auth/resend-otp"
           ApiClient.no_options 200%N "OK" payload eq_refl eq_refl).
Defined.

Lemma errorMessage_data_wrapper_wins_witness :
  ApiClient.errorMessage
    (VObject [("message", VString "Request failed");
              ("error", VString "bad_request");
              ("data", VObject [("message", VString "Email already registered")])])
    409 "Conflict"
  = "Email already registered".
Proof.
  apply (errorMessage_data_wrapper_wins _ 409%N "Conflict"
           [("message", VString "Email already registered")]).
  - reflexivity.
  - discriminate.
  - left. reflexivity.
Defined.

Lemma errorMessage_outer_order_witness :
  ApiClient.errorMessage
    (VObject [("error", VObject [("code", VString "E_LOGIN");
                                 ("message", VString "Invalid credentials")])])
    401 "Unauthorized"
  = "Invalid credentials".
Proof.
  apply errorMessage_outer_order.
  - reflexivity.
  - discriminate.
  - right. split; [reflexivity | left; reflexivity].
Defined.

Lemma errorMessage_without_fields_witness :
  ApiClient.errorMessage (VArray [VString "boom"]) 500 "Internal Server Error"
  = "HTTP 500: Internal Server Error".
Proof. apply errorMessage_without_fields; reflexivity. Defined.

Lemma request_config_without_token_witness :
  let options :=
    {| ApiClient.method := Some "POST"; ApiClient.body := None;
       ApiClient.headers := ApiClient.Present {[ "Authorization" := "Basic abc" ]} |} in
  ApiClient.spreadable
    (ApiClient.headers
       (ApiClient.request_config (ApiClient.setAccessToken (Some "") localhost) options))
    !! "Authorization" = Some "Basic abc".
Proof.
  intros options.
  exact (proj2 (proj2 (request_config_without_token
                         (ApiClient.setAccessToken (Some "") localhost) options))
           eq_refl).
Defined.

Lemma request_config_keeps_caller_headers_witness :
  let options :=
    {| ApiClient.method := Some "GET"; ApiClient.body := None;
       ApiClient.headers := ApiClient.Present {[ "Accept-Language" := "id" ]} |} in
  ApiClient.spreadable
    (ApiClient.headers
       (ApiClient.request_config (ApiClient.setAccessToken (Some "t0k3n") localhost) options))
    !! "Accept-Language" = Some "id".
Proof.
  intros options.
  apply (request_config_keeps_caller_headers
           (ApiClient.setAccessToken (Some "t0k3n") localhost) options
           {[ "Accept-Language" := "id" ]}).
  - reflexivity.
  - reflexivity.
  - discriminate.
Defined.

(** ** The token manager: round trips, frame and composition *)

Lemma setTokens_storage a r w :
  TokenManager.window w = true ->
  TokenManager.localStorage (TokenManager.setTokens a r w)
  = <[TokenManager.REFRESH_TOKEN_KEY := r]>
      (<[TokenManager.ACCESS_TOKEN_KEY := a]> (TokenManager.localStorage w)).
Proof. intros Hw. unfold TokenManager.setTokens. now rewrite Hw. Qed.

Lemma setTokens_window a r w :
  TokenManager.window (TokenManager.setTokens a r w) = TokenManager.window w.
Proof.
  unfold TokenManager.setTokens.
  destruct (TokenManager.window w) eqn:Hw; simpl; congruence.
Qed.

Lemma clearTokens_window w :
  TokenManager.window (TokenManager.clearTokens w) = TokenManager.window w.
Proof.
  unfold TokenManager.clearTokens.
  destruct (TokenManager.window w) eqn:Hw; simpl; congruence.
Qed.

Lemma refresh_calls_setTokens a r w :
  TokenManager.refresh_calls (TokenManager.setTokens a r w)
  = TokenManager.refresh_calls w.
Proof. unfold TokenManager.setTokens. destruct (TokenManager.window w); reflexivity. Qed.

Lemma refresh_calls_clearTokens w :
  TokenManager.refresh_calls (TokenManager.clearTokens w)
  = TokenManager.refresh_calls w.
Proof. unfold TokenManager.clearTokens. destruct (TokenManager.window w); reflexivity. Qed.

Lemma getRefreshToken_setTokens a r w :
  TokenManager.window w = true ->
  TokenManager.getRefreshToken (TokenManager.setTokens a r w) = Some r.
Proof.
  intros Hw. unfold TokenManager.getRefreshToken.
  rewrite setTokens_window, Hw, (setTokens_storage a r w Hw).
  apply lookup_setTokens_refresh.
Qed.

Lemma getRefreshToken_clearTokens w :
  TokenManager.getRefreshToken (TokenManager.clearTokens w) = None.
Proof.
  unfold TokenManager.getRefreshToken, TokenManager.clearTokens.
  destruct (TokenManager.window w) eqn:Hw; simpl; rewrite ?Hw; [| reflexivity].
  apply lookup_clearTokens_refresh.
Qed.

Lemma perform_window op w :
  TokenManager.window (TokenManager.perform op w) = TokenManager.window w.
Proof.
  destruct op as [a r | | api]; simpl.
  - apply setTokens_window.
  - apply clearTokens_window.
  - unfold TokenManager.refreshAccessToken.
    destruct (TokenManager.getRefreshToken w) as [rt |]; [| reflexivity].
    destruct (nonempty rt); simpl; [| reflexivity].
    destruct (api rt); simpl; [rewrite setTokens_window | rewrite clearTokens_window];
      reflexivity.
Qed.

(** X10. In a browser, what [setTokens] stores is what the two getters
    return. *)
Theorem setTokens_then_get a r w :
  TokenManager.window w = true ->
  TokenManager.getAccessToken (TokenManager.setTokens a r w) = Some a
  /\ TokenManager.getRefreshToken (TokenManager.setTokens a r w) = Some r.
Proof.
  intros Hw. split; [| now apply getRefreshToken_setTokens].
  unfold TokenManager.getAccessToken.
  rewrite setTokens_window, Hw, (setTokens_storage a r w Hw).
  apply lookup_setTokens_access.
Qed.

(** X11. After [clearTokens] both getters return [null], whatever was
    stored and whether or not there is a browser. *)
Theorem clearTokens_then_get w :
  TokenManager.getAccessToken (TokenManager.clearTokens w) = None
  /\ TokenManager.getRefreshToken (TokenManager.clearTokens w) = None.
Proof.
  split; [| apply getRefreshToken_clearTokens].
  unfold TokenManager.getAccessToken, TokenManager.clearTokens.
  destruct (TokenManager.window w) eqn:Hw; simpl; rewrite ?Hw; [| reflexivity].
  apply lookup_clearTokens_access.
Qed.

(** X12. The last write wins and leaves no trace of the one before:
    storing a second pair equals storing it alone, and clearing after a
    store equals clearing alone. *)
Theorem setTokens_overwritten a1 r1 a2 r2 w :
  TokenManager.setTokens a2 r2 (TokenManager.setTokens a1 r1 w)
  = TokenManager.setTokens a2 r2 w
  /\ TokenManager.clearTokens (TokenManager.setTokens a1 r1 w)
     = TokenManager.clearTokens w.
Proof.
  unfold TokenManager.setTokens, TokenManager.clearTokens,
    TokenManager.with_localStorage.
  destruct (TokenManager.window w) eqn:Hw; simpl; rewrite ?Hw; [| split; reflexivity].
  split; f_equal; apply map_eq; intros k;
    repeat first [rewrite lookup_insert | rewrite lookup_delete]; repeat case_decide;
    congruence.
Qed.

(** X13. Outside a browser ([window] undefined) no sequence of operations
    stores anything or calls the backend, and the getters return [null]. *)
Theorem run_without_window ops w :
  TokenManager.window w = false ->
  TokenManager.run ops w = w
  /\ TokenManager.getAccessToken w = None
  /\ TokenManager.getRefreshToken w = None.
Proof.
  intros Hw. split.
  - unfold TokenManager.run. induction ops as [| op ops IH]; simpl; [reflexivity |].
    assert (TokenManager.perform op w = w) as ->; [| exact IH].
    destruct op as [a r | | api]; simpl;
      unfold TokenManager.setTokens, TokenManager.clearTokens,
        TokenManager.refreshAccessToken, TokenManager.getRefreshToken;
      rewrite Hw; reflexivity.
  - unfold TokenManager.getAccessToken, TokenManager.getRefreshToken.
    rewrite Hw. split; reflexivity.
Qed.

(** X14. The token manager owns its two slots only: no sequence of
    operations changes any other key of [localStorage]. *)
Theorem run_keeps_other_keys ops w (k : string) :
  k <> TokenManager.ACCESS_TOKEN_KEY ->
  k <> TokenManager.REFRESH_TOKEN_KEY ->
  TokenManager.localStorage (TokenManager.run ops w) !! k
  = TokenManager.localStorage w !! k.
Proof.
  intros Ha Hr. unfold TokenManager.run. revert w.
  induction ops as [| op ops IH]; intros w; simpl; [reflexivity |].
  rewrite IH.
  destruct (perform_both_or_none op w) as [-> | [(a & r & ->) | ->]].
  - reflexivity.
  - rewrite !lookup_insert_ne by congruence. reflexivity.
  - rewrite !lookup_delete_ne by congruence. reflexivity.
Qed.

Lemma perform_refresh_calls op w :
  exists new,
    TokenManager.refresh_calls (TokenManager.perform op w)
    = (TokenManager.refresh_calls w ++ new)%list
    /\ length new <= (if Spec.is_refresh op then 1 else 0).
Proof.
  destruct op as [a r | | api]; simpl.
  - exists []. rewrite app_nil_r. split; [| simpl; lia].
    unfold TokenManager.setTokens. now destruct (TokenManager.window w).
  - exists []. rewrite app_nil_r. split; [| simpl; lia].
    unfold TokenManager.clearTokens. now destruct (TokenManager.window w).
  - unfold TokenManager.refreshAccessToken.
    destruct (TokenManager.getRefreshToken w) as [rt |];
      [| exists []; rewrite app_nil_r; split; [reflexivity | simpl; lia]].
    destruct (nonempty rt); simpl;
      [| exists []; rewrite app_nil_r; split; [reflexivity | simpl; lia]].
    exists [rt]. split; [| simpl; lia].
    destruct (api rt); simpl;
      unfold TokenManager.setTokens, TokenManager.clearTokens; simpl;
      destruct (TokenManager.window w); reflexivity.
Qed.

(** X15. The backend is called at most once per refresh and never by the
    other operations; earlier calls stay on record. *)
Theorem run_refresh_calls ops w :
  exists new,
    TokenManager.refresh_calls (TokenManager.run ops w)
    = (TokenManager.refresh_calls w ++ new)%list
    /\ length new <= length (List.filter Spec.is_refresh ops).
Proof.
  unfold TokenManager.run. revert w.
  induction ops as [| op ops IH]; intros w; simpl.
  - exists []. rewrite app_nil_r. split; [reflexivity | simpl; lia].
  - destruct (perform_refresh_calls op w) as (new1 & Hnew1 & Hlen1).
    destruct (IH (TokenManager.perform op w)) as (new2 & Hnew2 & Hlen2).
    exists (new1 ++ new2)%list. rewrite Hnew2, Hnew1, <- app_assoc.
    split; [reflexivity |]. rewrite length_app.
    destruct (Spec.is_refresh op); simpl; lia.
Qed.

Section RefreshTwice.
Variables first second : string -> outcome AuthResponse.t.
Variable w : TokenManager.world.
Variable refreshToken : string.
Hypothesis stored : TokenManager.getRefreshToken w = Some refreshToken.
Hypothesis usable : refreshToken <> "".

Let w1 := snd (TokenManager.refreshAccessToken first w).

(** X16. A failed refresh ends the session for good: the next refresh
    returns [null] without calling the backend, whatever the backend would
    answer. *)
Theorem refresh_failure_then_silent (error : exn) :
  first refreshToken = Rejected error ->
  TokenManager.refreshAccessToken second w1 = (None, w1).
Proof.
  intros Hfirst.
  assert (Hw1 : w1 = TokenManager.clearTokens
                       (TokenManager.call_refreshToken refreshToken w)).
  { subst w1. unfold TokenManager.refreshAccessToken.
    rewrite stored, (proj2 (nonempty_true_iff _) usable), Hfirst. reflexivity. }
  rewrite Hw1. unfold TokenManager.refreshAccessToken.
  rewrite getRefreshToken_clearTokens. reflexivity.
Qed.

(** X17. Tokens rotate: after a successful refresh the next one sends the
    refresh token the backend just returned, not the one used before. *)
Theorem refresh_rotates_token (response : AuthResponse.t) :
  first refreshToken = Resolved response ->
  AuthResponse.refresh_token response <> "" ->
  TokenManager.refresh_calls (snd (TokenManager.refreshAccessToken second w1))
  = (TokenManager.refresh_calls w
     ++ [refreshToken; AuthResponse.refresh_token response])%list.
Proof.
  intros Hfirst Hnew.
  pose proof (getRefreshToken_window w refreshToken stored) as Hw.
  assert (Hw1 : w1 = TokenManager.setTokens (AuthResponse.access_token response)
                       (AuthResponse.refresh_token response)
                       (TokenManager.call_refreshToken refreshToken w)).
  { subst w1. unfold TokenManager.refreshAccessToken.
    rewrite stored, (proj2 (nonempty_true_iff _) usable), Hfirst. reflexivity. }
  rewrite Hw1. unfold TokenManager.refreshAccessToken.
  rewrite (getRefreshToken_setTokens (AuthResponse.access_token response)
             (AuthResponse.refresh_token response)
             (TokenManager.call_refreshToken refreshToken w) Hw).
  rewrite (proj2 (nonempty_true_iff _) Hnew). simpl.
  destruct (second _); simpl;
    rewrite ?refresh_calls_setTokens, ?refresh_calls_clearTokens; simpl;
    rewrite refresh_calls_setTokens; simpl; rewrite <- app_assoc; reflexivity.
Qed.

End RefreshTwice.

(** *** Witnesses on concrete stores *)

Lemma setTokens_then_get_witness :
  TokenManager.getAccessToken (TokenManager.setTokens "a1" "r1" signed_out) = Some "a1"
  /\ TokenManager.getRefreshToken (TokenManager.setTokens "a1" "r1" signed_out) = Some "r1".
Proof. exact (setTokens_then_get "a1" "r1" signed_out eq_refl). Defined.

Lemma run_without_window_witness :
  let server :=
    {| TokenManager.window := false; TokenManager.localStorage := ∅;
       TokenManager.refresh_calls := [] |} in
  TokenManager.run
    [TokenManager.SetTokens "a0" "r0"; TokenManager.RefreshAccessToken backend_up;
     TokenManager.ClearTokens] server = server
  /\ TokenManager.getAccessToken server = None
  /\ TokenManager.getRefreshToken server = None.
Proof. intros server. exact (run_without_window _ server eq_refl). Defined.

Lemma run_keeps_other_keys_witness :
  let w :=
    {| TokenManager.window := true;
       TokenManager.localStorage := {[ "theme" := "dark"; "access_token" := "a0" ]};
       TokenManager.refresh_calls := [] |} in
  TokenManager.localStorage
    (TokenManager.run [TokenManager.SetTokens "a1" "r1"; TokenManager.ClearTokens] w)
    !! "theme" = TokenManager.localStorage w !! "theme".
Proof.
  intros w.
  apply (run_keeps_other_keys
           [TokenManager.SetTokens "a1" "r1"; TokenManager.ClearTokens] w "theme");
    discriminate.
Defined.

Lemma refresh_failure_then_silent_witness :
  let w1 := snd (TokenManager.refreshAccessToken backend_down signed_in) in
  TokenManager.refreshAccessToken backend_up w1 = (None, w1).
Proof.
  intros w1.
  apply (refresh_failure_then_silent backend_down backend_up signed_in "r0" eq_refl
           ltac:(discriminate)
           (ErrorObject "Error" "HTTP 401: Unauthorized" (Some (401%N, VObject []))) eq_refl).
Defined.

Lemma refresh_rotates_token_witness :
  TokenManager.refresh_calls
    (snd (TokenManager.refreshAccessToken backend_down
            (snd (TokenManager.refreshAccessToken backend_up signed_in))))
  = ["r0"; "r1"].
Proof.
  exact (refresh_rotates_token backend_up backend_down signed_in "r0" eq_refl
           ltac:(discriminate)
           {| AuthResponse.user := VObject [("id", VString "u1")];
              AuthResponse.access_token := "a1";
              AuthResponse.refresh_token := "r1";
              AuthResponse.expires_in := S754_finite false 900 0 |}
           eq_refl ltac:(discriminate)).
Defined.

(** ** The confirm-reset page: guard, handler and form together *)

Lemma app_cons_not_self {A : Type} (l r : list A) (x : A) : (l ++ x :: r)%list <> l.
Proof.
  intros Heq. apply (f_equal (@length A)) in Heq.
  rewrite length_app in Heq. simpl in Heq. lia.
Qed.

(** X18. The guard never touches the session store, and it leaves the user
    on the page exactly when both a non-empty email and a non-empty
    verified OTP are stored: any other store makes it navigate away. *)
Theorem useEffect_redirects_iff_missing (st : VerifyResetPassword.state) :
  VerifyResetPassword.sessionStorage (VerifyResetPassword.useEffect st)
  = VerifyResetPassword.sessionStorage st
  /\ (VerifyResetPassword.effects (VerifyResetPassword.useEffect st)
      = VerifyResetPassword.effects st
      <-> truthy_string (VerifyResetPassword.sessionStorage st !! "reset_password_email") = true
          /\ truthy_string (VerifyResetPassword.sessionStorage st !! "verified_otp") = true).
Proof.
  unfold VerifyResetPassword.useEffect, VerifyResetPassword.getItem.
  destruct (truthy_string (VerifyResetPassword.sessionStorage st !! "reset_password_email"));
    destruct (truthy_string (VerifyResetPassword.sessionStorage st !! "verified_otp"));
    simpl; (split; [reflexivity |]); split;
    try (intros [? ?]; discriminate); try (intros _; split; reflexivity);
    try reflexivity.
  - intros Heq. now apply app_cons_not_self in Heq.
  - intros Heq. now apply app_cons_not_self in Heq.
  - rewrite <- app_assoc. intros Heq. now apply app_cons_not_self in Heq.
Qed.

Section SubmitOnce.
Variable apiClient :
  VerifyResetPasswordRequest.t -> outcome VerifyResetPasswordResponse.t.
Variable nextAuth :
  string -> VerifyResetPassword.SignInOptions
  -> outcome (option VerifyResetPassword.SignInResponse).
Variable st : VerifyResetPassword.state.

(** The handler, when a validation fails. *)
Lemma verifyResetPassword_invalid (v : Spec.validation) :
  Spec.first_failure st = Some v ->
  VerifyResetPassword.verifyResetPassword apiClient nextAuth st
  = Spec.perform_all (Spec.rejection v) st.
Proof.
  unfold Spec.first_failure, Spec.validations, find, Spec.passes,
    VerifyResetPassword.verifyResetPassword, VerifyResetPassword.getItem.
  rewrite Nat.ltb_antisym.
  destruct (nonempty (VerifyResetPassword.email st)); [| intros [= <-]; reflexivity].
  destruct (nonempty (VerifyResetPassword.newPassword st));
    [| intros [= <-]; reflexivity].
  destruct (nonempty (VerifyResetPassword.confirmPassword st));
    [| intros [= <-]; reflexivity].
  destruct (String.eqb _ _); [| intros [= <-]; reflexivity].
  destruct (Nat.leb 6 (utf16_length _)); [| intros [= <-]; reflexivity].
  destruct (truthy_string _); [discriminate | intros [= <-]; reflexivity].
Qed.

End SubmitOnce.

(** Splits a goal about the handler into its ten ways through the code:
    the five rejections, and, past validation, the backend failing or
    succeeding with the session bridge accepting, refusing or raising. *)
Ltac handler_cases apiClient nextAuth st :=
  let v := fresh "v" in
  let Hff := fresh "Hff" in
  let otp := fresh "otp" in
  let Hget := fresh "Hget" in
  let Hne := fresh "Hne" in
  let Hst := fresh "Hst" in
  destruct (Spec.first_failure st) as [v |] eqn:Hff;
  [ rewrite (verifyResetPassword_invalid apiClient nextAuth st v Hff); destruct v
  | destruct (verifyResetPassword_validated apiClient nextAuth st Hff)
      as (otp & Hget & Hne & Hst);
    rewrite Hst; clear Hst;
    let response := fresh "response" in
    let error := fresh "error" in
    let Hapi := fresh "Hapi" in
    destruct (apiClient _) as [response | error] eqn:Hapi;
    [ let loginResult := fresh "loginResult" in
      let loginError := fresh "loginError" in
      destruct (nextAuth "credentials" _) as [loginResult | loginError];
      [ destruct (VerifyResetPassword.loginResult_ok loginResult) | ]
    | ] ].

Section SubmitAlways.
Variable apiClient :
  VerifyResetPasswordRequest.t -> outcome VerifyResetPasswordResponse.t.
Variable nextAuth :
  string -> VerifyResetPassword.SignInOptions
  -> outcome (option VerifyResetPassword.SignInResponse).
Variable st : VerifyResetPassword.state.

(** What the user typed is not the handler's to change. *)
Lemma verifyResetPassword_inputs :
  VerifyResetPassword.email
    (VerifyResetPassword.verifyResetPassword apiClient nextAuth st)
  = VerifyResetPassword.email st
  /\ VerifyResetPassword.newPassword
       (VerifyResetPassword.verifyResetPassword apiClient nextAuth st)
     = VerifyResetPassword.newPassword st
  /\ VerifyResetPassword.confirmPassword
       (VerifyResetPassword.verifyResetPassword apiClient nextAuth st)
     = VerifyResetPassword.confirmPassword st.
Proof. handler_cases apiClient nextAuth st; repeat split. Qed.

(** A submission that reaches the backend uses up the verified OTP. *)
Lemma verifyResetPassword_consumes_otp :
  Spec.first_failure st = None ->
  VerifyResetPassword.sessionStorage
    (VerifyResetPassword.verifyResetPassword apiClient nextAuth st)
    !! "verified_otp" = None.
Proof.
  intros Hpass. handler_cases apiClient nextAuth st; try discriminate Hpass;
    simpl; apply lookup_delete_eq.
Qed.

(** X19. The handler never leaves the page busy: once a submission that
    passed validation has run its course, or when the page was idle before
    a rejected one, [loading] and [isVerifying] are both off. *)
Theorem verifyResetPassword_ends_idle :
  Spec.first_failure st = None
  \/ (VerifyResetPassword.loading st = false
      /\ VerifyResetPassword.isVerifying st = false) ->
  VerifyResetPassword.loading
    (VerifyResetPassword.verifyResetPassword apiClient nextAuth st) = false
  /\ VerifyResetPassword.isVerifying
       (VerifyResetPassword.verifyResetPassword apiClient nextAuth st) = false.
Proof.
  intros Hidle. handler_cases apiClient nextAuth st; simpl; try (split; reflexivity);
    destruct Hidle as [Hpass | [Hl Hv]]; try discriminate Hpass; auto.
Qed.

(** X20. Whatever happens, the handler leaves what the user typed, and
    the email shown, as they were: a rejected or failed submission can be
    corrected and sent again. *)
Theorem verifyResetPassword_keeps_inputs :
  VerifyResetPassword.email
    (VerifyResetPassword.verifyResetPassword apiClient nextAuth st)
  = VerifyResetPassword.email st
  /\ VerifyResetPassword.newPassword
       (VerifyResetPassword.verifyResetPassword apiClient nextAuth st)
     = VerifyResetPassword.newPassword st
  /\ VerifyResetPassword.confirmPassword
       (VerifyResetPassword.verifyResetPassword apiClient nextAuth st)
     = VerifyResetPassword.confirmPassword st.
Proof. exact verifyResetPassword_inputs. Qed.

(** X21. The handler only ever removes from the session store, and only
    its own two keys: nothing is added, and every other key keeps its
    value. *)
Theorem verifyResetPassword_storage_frame :
  VerifyResetPassword.sessionStorage
    (VerifyResetPassword.verifyResetPassword apiClient nextAuth st)
  ⊆ VerifyResetPassword.sessionStorage st
  /\ forall k : string,
       k <> "reset_password_email" -> k <> "verified_otp" ->
       VerifyResetPassword.sessionStorage
         (VerifyResetPassword.verifyResetPassword apiClient nextAuth st) !! k
       = VerifyResetPassword.sessionStorage st !! k.
Proof.
  handler_cases apiClient nextAuth st; simpl;
    (split;
     [ first [ reflexivity
             | apply delete_subseteq
             | etransitivity; apply delete_subseteq ]
     | intros k Hk1 Hk2; rewrite ?lookup_delete_ne by congruence; reflexivity ]).
Qed.

End SubmitAlways.

(** Exposes what the handler added to the effects performed so far. *)
Ltac added_effects :=
  simpl; rewrite <- ?app_assoc; simpl; eexists; split; [reflexivity |].

Section SubmitEffects.
Variable apiClient :
  VerifyResetPasswordRequest.t -> outcome VerifyResetPasswordResponse.t.
Variable nextAuth :
  string -> VerifyResetPassword.SignInOptions
  -> outcome (option VerifyResetPassword.SignInResponse).
Variable st : VerifyResetPassword.state.

(** X22. One submission calls the backend at most once and the session
    bridge at most once, and the bridge only when the backend has accepted
    the reset. *)
Theorem verifyResetPassword_calls_once :
  exists new,
    VerifyResetPassword.effects
      (VerifyResetPassword.verifyResetPassword apiClient nextAuth st)
    = (VerifyResetPassword.effects st ++ new)%list
    /\ Spec.count Spec.is_backend_call new <= 1
    /\ Spec.count Spec.is_signIn new <= Spec.count Spec.is_backend_call new
    /\ (Spec.count Spec.is_signIn new = 1 ->
        exists otp response,
          VerifyResetPassword.sessionStorage st !! "verified_otp" = Some otp
          /\ apiClient
               {| VerifyResetPasswordRequest.email := VerifyResetPassword.email st;
                  VerifyResetPasswordRequest.otp_code := otp;
                  VerifyResetPasswordRequest.new_password :=
                    VerifyResetPassword.newPassword st |}
             = Resolved response).
Proof.
  handler_cases apiClient nextAuth st; added_effects; unfold Spec.count; simpl;
    (split; [lia |]); (split; [lia |]);
    try (intros Hone; discriminate Hone);
    intros _; eauto.
Qed.

(** X23. Every submission tells the user something and sends them to at
    most one place: it shows one or two toasts and navigates at most
    once. *)
Theorem verifyResetPassword_feedback :
  exists new,
    VerifyResetPassword.effects
      (VerifyResetPassword.verifyResetPassword apiClient nextAuth st)
    = (VerifyResetPassword.effects st ++ new)%list
    /\ 1 <= Spec.count Spec.is_toast new <= 2
    /\ Spec.count Spec.is_redirect new <= 1.
Proof.
  handler_cases apiClient nextAuth st; added_effects; unfold Spec.count; simpl; lia.
Qed.

(** X24. A verified OTP is used for one backend call only: after a
    submission that reached the backend, whether the reset was accepted or
    not, submitting again is rejected locally for the missing OTP and sent
    back to the OTP step. *)
Theorem second_submission_stays_local
    (apiClient' : VerifyResetPasswordRequest.t -> outcome VerifyResetPasswordResponse.t)
    (nextAuth' : string -> VerifyResetPassword.SignInOptions
                 -> outcome (option VerifyResetPassword.SignInResponse)) :
  Spec.first_failure st = None ->
  Spec.first_failure (VerifyResetPassword.verifyResetPassword apiClient nextAuth st)
  = Some Spec.otp_present
  /\ VerifyResetPassword.effects
       (VerifyResetPassword.verifyResetPassword apiClient' nextAuth'
          (VerifyResetPassword.verifyResetPassword apiClient nextAuth st))
     = (VerifyResetPassword.effects
          (VerifyResetPassword.verifyResetPassword apiClient nextAuth st)
        ++ Spec.rejection Spec.otp_present)%list.
Proof.
  intros Hpass.
  assert (Hagain :
    Spec.first_failure (VerifyResetPassword.verifyResetPassword apiClient nextAuth st)
    = Some Spec.otp_present).
  { destruct (first_failure_None st Hpass) as (He & Hn & Hc & Heq & Hlen & _).
    rewrite Nat.ltb_antisym in Hlen. apply negb_false_iff in Hlen.
    destruct (verifyResetPassword_inputs apiClient nextAuth st) as (Ee & En & Ec).
    pose proof (verifyResetPassword_consumes_otp apiClient nextAuth st Hpass) as Hused.
    unfold Spec.first_failure, Spec.validations, find, Spec.passes.
    rewrite Ee, En, Ec, He, Hn, Hc, Heq, Hlen, Hused. reflexivity. }
  split; [exact Hagain |].
  rewrite (verifyResetPassword_invalid apiClient' nextAuth' _ _ Hagain).
  simpl. now rewrite <- app_assoc.
Qed.

(** X25. With the form shown and the submit button enabled, a submission
    (which always suppresses the browser's own form submission) never ends
    in the "email missing" or "password required" message: those two
    checks cannot fail from the rendered form. *)
Theorem enabled_submit_passes_presence_checks (e : VerifyResetPassword.FormEvent) :
  VerifyResetPassword.render st = VerifyResetPassword.Form ->
  VerifyResetPassword.submit_disabled st = false ->
  VerifyResetPassword.defaultPrevented
    (fst (VerifyResetPassword.handleSubmit apiClient nextAuth e st)) = true
  /\ exists new,
       VerifyResetPassword.effects
         (snd (VerifyResetPassword.handleSubmit apiClient nextAuth e st))
       = (VerifyResetPassword.effects st ++ new)%list
       /\ ~ In (VerifyResetPassword.toast VerifyResetPassword.toast_email_missing) new
       /\ ~ In (VerifyResetPassword.toast VerifyResetPassword.toast_password_required) new.
Proof.
  unfold VerifyResetPassword.render, VerifyResetPassword.submit_disabled,
    VerifyResetPassword.handleSubmit.
  intros Hform Hactive. split; [reflexivity |]. simpl.
  assert (He : nonempty (VerifyResetPassword.email st) = true)
    by (destruct (nonempty (VerifyResetPassword.email st)); [reflexivity | discriminate]).
  apply orb_false_elim in Hactive as [Hactive Hc].
  apply orb_false_elim in Hactive as [_ Hn].
  apply negb_false_iff in Hn, Hc.
  handler_cases apiClient nextAuth st;
    try (exfalso; revert Hff;
         unfold Spec.first_failure, Spec.validations, find, Spec.passes;
         rewrite He, Hn, Hc; simpl;
         repeat match goal with
                | |- context [if negb ?b then _ else _] => destruct b; simpl
                end;
         discriminate);
    added_effects; simpl; split; intros Hin;
    repeat (destruct Hin as [Hin | Hin]; [discriminate Hin |]); exact Hin.
Qed.

End SubmitEffects.

(** X26. When the guard lets the user stay, the form is shown for the
    stored email, and whatever passwords are then typed, a submission
    cannot fail for a missing email or a missing OTP. *)
Theorem useEffect_passed_then_presence_holds (st : VerifyResetPassword.state)
    (newPassword confirmPassword : string) :
  VerifyResetPassword.effects (VerifyResetPassword.useEffect st)
  = VerifyResetPassword.effects st ->
  let typed :=
    VerifyResetPassword.setConfirmPassword confirmPassword
      (VerifyResetPassword.setNewPassword newPassword (VerifyResetPassword.useEffect st)) in
  VerifyResetPassword.render typed = VerifyResetPassword.Form
  /\ Some (VerifyResetPassword.email typed)
     = VerifyResetPassword.sessionStorage st !! "reset_password_email"
  /\ forall v, Spec.first_failure typed = Some v ->
       v <> Spec.email_present /\ v <> Spec.otp_present.
Proof.
  unfold VerifyResetPassword.useEffect, VerifyResetPassword.getItem,
    VerifyResetPassword.render.
  destruct (VerifyResetPassword.sessionStorage st !! "reset_password_email")
    as [stored |] eqn:Hemail; simpl;
    [destruct (nonempty stored) eqn:Hstored |];
    (destruct (truthy_string (VerifyResetPassword.sessionStorage st !! "verified_otp"))
       eqn:Hotp; simpl;
     [| rewrite <- ?app_assoc; intros Heq; now apply app_cons_not_self in Heq]);
    try (intros Heq; now apply app_cons_not_self in Heq).
  intros _. rewrite Hstored. split; [reflexivity |]. split; [reflexivity |].
  intros v. unfold Spec.first_failure, Spec.validations, find, Spec.passes. simpl.
  rewrite Hstored, Hotp. simpl.
  repeat match goal with
         | |- context [if negb ?b then _ else _] => destruct b; simpl
         end;
    intros [= <-]; split; discriminate.
Qed.

(** *** Witnesses on the concrete page *)

Lemma verifyResetPassword_ends_idle_witness :
  let st :=
    VerifyResetPassword.setLoading true
      (mounted "user@example.com" "abcdef" "abcdef" otp_verified) in
  VerifyResetPassword.loading
    (VerifyResetPassword.verifyResetPassword reset_rejected bridge_accepts st) = false
  /\ VerifyResetPassword.isVerifying
       (VerifyResetPassword.verifyResetPassword reset_rejected bridge_accepts st) = false.
Proof.
  intros st.
  exact (verifyResetPassword_ends_idle reset_rejected bridge_accepts st
           (or_introl eq_refl)).
Defined.

Lemma second_submission_stays_local_witness :
  let st := mounted "user@example.com" "abcdef" "abcdef" otp_verified in
  let st1 := VerifyResetPassword.verifyResetPassword reset_rejected bridge_accepts st in
  Spec.first_failure st = None
  /\ Spec.first_failure st1 = Some Spec.otp_present
  /\ VerifyResetPassword.effects
       (VerifyResetPassword.verifyResetPassword reset_accepted bridge_accepts st1)
     = (VerifyResetPassword.effects st1
        ++ [VerifyResetPassword.toast VerifyResetPassword.toast_otp_missing;
            VerifyResetPassword.router_push "/auth/verify-otp-reset"])%list.
Proof.
  intros st st1. split; [reflexivity |].
  exact (second_submission_stays_local reset_rejected bridge_accepts st
           reset_accepted bridge_accepts eq_refl).
Defined.

Lemma enabled_submit_passes_presence_checks_witness :
  let st := mounted "user@example.com" "abc" "abd" otp_verified in
  let e := {| VerifyResetPassword.defaultPrevented := false |} in
  VerifyResetPassword.render st = VerifyResetPassword.Form
  /\ VerifyResetPassword.submit_disabled st = false
  /\ VerifyResetPassword.defaultPrevented
       (fst (VerifyResetPassword.handleSubmit reset_accepted bridge_accepts e st)) = true
  /\ exists new,
       VerifyResetPassword.effects
         (snd (VerifyResetPassword.handleSubmit reset_accepted bridge_accepts e st))
       = (VerifyResetPassword.effects st ++ new)%list
       /\ ~ In (VerifyResetPassword.toast VerifyResetPassword.toast_email_missing) new
       /\ ~ In (VerifyResetPassword.toast VerifyResetPassword.toast_password_required) new.
Proof.
  intros st e. split; [reflexivity |]. split; [reflexivity |].
  exact (enabled_submit_passes_presence_checks reset_accepted bridge_accepts st e
           eq_refl eq_refl).
Defined.

Lemma useEffect_passed_then_presence_holds_witness :
  let st := mounted "" "" "" otp_verified in
  let typed :=
    VerifyResetPassword.setConfirmPassword "abcdef"
      (VerifyResetPassword.setNewPassword "abcdef" (VerifyResetPassword.useEffect st)) in
  VerifyResetPassword.render typed = VerifyResetPassword.Form
  /\ Some (VerifyResetPassword.email typed) = Some "user@example.com"
  /\ forall v, Spec.first_failure typed = Some v ->
       v <> Spec.email_present /\ v <> Spec.otp_present.
Proof.
  intros st typed.
  exact (useEffect_passed_then_presence_holds st "abcdef" "abcdef" eq_refl).
Defined.
